(** * otel-sample-app: a shallow embedding of [app.py]

    The Flask application of [app.py] is embedded as state-passing code over
    a [World] that holds everything the handlers touch: the random source,
    the system clock, the log/trace/sleep effects in the order they happen,
    the Prometheus registry and the measurements handed to the OpenTelemetry
    meter.  Python exceptions are an explicit outcome of every computation.

    Numbers are as Python has them: [int] is [Z], [float] is the IEEE-754
    binary64 of [PrimFloat].  Time that really passes is a rational number
    of seconds. *)

From Stdlib Require Import ZArith QArith Lqa String Ascii List DecimalString DecimalPos Floats Uint63.
From stdpp Require Import gmap strings list fin_maps.

Set Warnings "-inexact-float,-register-all".

Open Scope string_scope.
Open Scope Z_scope.

(** ** Python builtins *)

Module Py.

(** [str(n)] for an [int]. *)
Definition str_int (z : Z) : string := NilEmpty.string_of_int (Z.to_int z).

(** The exception classes that matter to [app.py], with their place in the
    builtin hierarchy: [BaseException] > [Exception] > [ValueError], and
    [KeyboardInterrupt] directly under [BaseException]. *)
Inductive exc_class := BaseException | Exception | ValueError | KeyboardInterrupt.

Definition issubclass (c d : exc_class) : bool :=
  match d, c with
  | BaseException, _ => true
  | Exception, (Exception | ValueError) => true
  | ValueError, ValueError => true
  | KeyboardInterrupt, KeyboardInterrupt => true
  | _, _ => false
  end.

(** An exception instance built from one string argument, [Cls(msg)]. *)
Record exc := { exc_type : exc_class; exc_arg : string }.

(** [str(e)] of an exception with a single argument is that argument. *)
Definition str_exc (e : exc) : string := exc_arg e.

(** A [string] holds a Python [str] in UTF-8.  [code_points] gives its
    characters, and [None] for bytes that are not the UTF-8 of a [str]:
    a stray or missing continuation byte, an encoding longer than needed, a
    surrogate, a value above U+10FFFF. *)
Definition continuation_byte (a : ascii) : option Z :=
  let b := Z.of_N (N_of_ascii a) in
  if (128 <=? b) && (b <? 192) then Some (b - 128) else None.

Definition scalar_value (lo cp : Z) : option Z :=
  if (lo <=? cp) && (cp <=? 1114111) && negb ((55296 <=? cp) && (cp <=? 57343))
  then Some cp else None.

Definition cons_code_point (cp : option Z) (rest : option (list Z)) : option (list Z) :=
  match cp, rest with
  | Some c, Some cps => Some (c :: cps)
  | _, _ => None
  end.

Fixpoint code_points (s : string) : option (list Z) :=
  match s with
  | EmptyString => Some []
  | String a s1 =>
      let b := Z.of_N (N_of_ascii a) in
      if b <? 128 then cons_code_point (Some b) (code_points s1)
      else if b <? 192 then None
      else if b <? 224 then
        match s1 with
        | String a1 s2 =>
            match continuation_byte a1 with
            | Some c1 =>
                cons_code_point (scalar_value 128 ((b - 192) * 64 + c1)) (code_points s2)
            | None => None
            end
        | _ => None
        end
      else if b <? 240 then
        match s1 with
        | String a1 (String a2 s3) =>
            match continuation_byte a1, continuation_byte a2 with
            | Some c1, Some c2 =>
                cons_code_point (scalar_value 2048 (((b - 224) * 64 + c1) * 64 + c2))
                  (code_points s3)
            | _, _ => None
            end
        | _ => None
        end
      else if b <? 248 then
        match s1 with
        | String a1 (String a2 (String a3 s4)) =>
            match continuation_byte a1, continuation_byte a2, continuation_byte a3 with
            | Some c1, Some c2, Some c3 =>
                cons_code_point
                  (scalar_value 65536 ((((b - 240) * 64 + c1) * 64 + c2) * 64 + c3))
                  (code_points s4)
            | _, _, _ => None
            end
        | _ => None
        end
      else None
  end.

(** The digit zero of every script whose digits are in the category Nd of
    Unicode 14.0, the database of CPython 3.11; the digits one to nine of a
    script follow its zero. *)
Definition decimal_zeros : list Z :=
  [ 48; 1632; 1776; 1984; 2406; 2534; 2662; 2790; 2918; 3046; 3174; 3302;
    3430; 3558; 3664; 3792; 3872; 4160; 4240; 6112; 6160; 6470; 6608; 6784;
    6800; 6992; 7088; 7232; 7248; 42528; 43216; 43264; 43472; 43504; 43600;
    44016; 65296; 66720; 68912; 69734; 69872; 69942; 70096; 70384; 70736;
    70864; 71248; 71360; 71472; 71904; 72016; 72784; 73040; 73120; 92768;
    92864; 93008; 120782; 120792; 120802; 120812; 120822; 123200; 123632;
    125264; 130032 ].

(** [unicodedata.decimal(chr(cp))] where it is defined.  These are the
    characters [\d] stands for in a pattern on [str], and the digits [int]
    reads. *)
Definition decimal (cp : Z) : option Z :=
  option_map (fun zero => cp - zero)
    (find (fun zero => (zero <=? cp) && (cp <? zero + 10)) decimal_zeros).

Fixpoint decimals (cps : list Z) : option (list Z) :=
  match cps with
  | [] => Some []
  | cp :: rest =>
      match decimal cp, decimals rest with
      | Some d, Some ds => Some (d :: ds)
      | _, _ => None
      end
  end.

(** The digits of [s] when all of [s] matches [\d+]. *)
Definition decimal_digits (s : string) : option (list Z) :=
  match code_points s with
  | Some (cp :: cps) => decimals (cp :: cps)
  | _ => None
  end.

(** The number a sequence of decimal digits writes. *)
Definition int_of_decimals (ds : list Z) : Z :=
  fold_left (fun n d => 10 * n + d) ds 0.

(** [sys.get_int_max_str_digits()], as the interpreter starts. *)
Definition int_max_str_digits : nat := 4300.

(** [int(s)] on a string that matches [\d+].  [None] stands for the
    [ValueError] of [int], which a string of more than [int_max_str_digits]
    digits raises, and for the strings that do not match. *)
Definition int_of_digits (s : string) : option Z :=
  match decimal_digits s with
  | Some ds =>
      if (length ds <=? int_max_str_digits)%nat then Some (int_of_decimals ds) else None
  | None => None
  end.

(** [format(x, ".2f")]: the exact binary value of [x], rounded half-even to
    two decimals. *)
Definition pad2 (n : Z) : string :=
  if n <? 10 then "0" ++ str_int n else str_int n.

Definition fixed2 (sign : bool) (num den : Z) : string :=
  let q := num / den in
  let r := num mod den in
  let q' := if (den <? 2 * r) || ((den =? 2 * r) && Z.odd q) then q + 1 else q in
  (if sign then "-" else "") ++ str_int (q' / 100) ++ "." ++ pad2 (q' mod 100).

Definition format_2f (x : float) : string :=
  match Prim2SF x with
  | S754_zero s => fixed2 s 0 1
  | S754_infinity s => if s then "-inf" else "inf"
  | S754_nan => "nan"
  | S754_finite s m e =>
      if 0 <=? e then fixed2 s (Z.pos m * 2 ^ e * 100) 1
      else fixed2 s (Z.pos m * 100) (2 ^ (- e))
  end.

(** The exact number of seconds a non-negative finite [float] stands for;
    0 for every other float. *)
Definition seconds (x : float) : Q :=
  match Prim2SF x with
  | S754_finite false m e =>
      if 0 <=? e then inject_Z (Z.pos m * 2 ^ e)
      else Z.pos m # Z.to_pos (2 ^ (- e))
  | _ => 0%Q
  end.

End Py.

(** ** JSON documents and HTTP responses *)

(** What [jsonify] is given: Python dicts keep insertion order, so a dict is
    an association list in source order. *)
Inductive json :=
| JInt (z : Z)
| JFloat (x : float)
| JStr (s : string)
| JBool (b : bool)
| JList (l : list json)
| JDict (kv : list (string * json)).

Fixpoint assoc {A} (k : string) (kv : list (string * A)) : option A :=
  match kv with
  | [] => None
  | (k', v) :: rest => if String.eqb k k' then Some v else assoc k rest
  end.

(** [d[k]] on a JSON document. *)
Definition json_get (k : string) (j : json) : option json :=
  match j with
  | JDict kv => assoc k kv
  | _ => None
  end.

Inductive content_type :=
| ApplicationJson          (* set by [jsonify] *)
| ContentTypeLatest        (* prometheus_client.CONTENT_TYPE_LATEST *)
| TextHtml.                (* Werkzeug's pages for HTTP errors *)

(** Label values of a child of [http_requests_total]: method, endpoint, status. *)
Abbreviation counter_key := (string * string * string)%type.
(** Label values of a child of [http_request_duration_seconds]. *)
Abbreviation hist_key := (string * string)%type.

(** The body of a response.  The text exposition of [generate_latest] is kept
    as the snapshot of the two registered metrics it is rendered from. *)
Inductive body :=
| BJson (j : json)
| BExposition (counters : gmap counter_key N) (histograms : gmap hist_key (list float))
| BHttpError (code : Z)
| BRedirect (location : string)   (* Werkzeug's page for a redirect to [location] *)
| BEmpty.

Record response := { status_code : Z; mimetype : content_type; data : body }.

(** What a view function returns: a response object, or a pair of one and a
    status code. *)
Inductive view_rv :=
| RvResponse (r : response)
| RvWithStatus (r : response) (status : Z).

(** [flask.jsonify(obj)]: a 200 response of type application/json. *)
Definition jsonify (j : json) : response :=
  {| status_code := 200; mimetype := ApplicationJson; data := BJson j |}.

(** [Flask.make_response] on the two shapes above. *)
Definition make_response (rv : view_rv) : response :=
  match rv with
  | RvResponse r => r
  | RvWithStatus r s =>
      {| status_code := s; mimetype := mimetype r; data := data r |}
  end.

(** ** The world the application runs in *)

(** [logging] levels with their numeric values. *)
Inductive level := DEBUG | INFO | WARNING | ERROR.

Definition levelno (l : level) : Z :=
  match l with DEBUG => 10 | INFO => 20 | WARNING => 30 | ERROR => 40 end.

(** Values given to [span.set_attribute]. *)
Inductive attr_value :=
| AStr (s : string)
| AInt (z : Z)
| AFloat (x : float)
| ABool (b : bool).

Definition span_id := nat.

(** Every effect a handler has on the outside, in the order it happens.
    A log record carries the span that is current when it is emitted. *)
Inductive event :=
| EvLog (lvl : level) (msg : string) (exc_info : option Py.exc) (in_span : option span_id)
| EvSpanStart (sid : span_id) (name : string) (parent : option span_id)
| EvSetAttribute (sid : span_id) (key : string) (v : attr_value)
| EvRecordException (sid : span_id) (e : Py.exc)
| EvSetStatusError (sid : span_id)
| EvSpanEnd (sid : span_id)
| EvSleep (secs : float)
| EvRandom (raw : Z).

(** A number given to an OpenTelemetry instrument. *)
Inductive number := NInt (z : Z) | NFloat (x : float).

(** One call of [Counter.add] or [Histogram.record] on an instrument of the
    meter, with the attributes dict in source order. *)
Record measurement := {
  instrument : string;
  amount : number;
  attributes : list (string * string)
}.

Record World := {
  (* the generator behind [random]: the raw draws still to come *)
  rand_src : nat -> Z;
  rand_pos : nat;
  (* the readings of the system clock that [time.time()] will give *)
  clock_src : nat -> float;
  clock_pos : nat;
  (* logs, spans and sleeps, oldest first *)
  events : list event;
  next_span_id : span_id;
  current_span : option span_id;
  (* prom_request_counter and prom_request_duration, child by child *)
  http_requests_total : gmap counter_key N;
  http_request_duration_seconds : gmap hist_key (list float);
  (* what the OTel instruments were given, oldest first *)
  otel_measurements : list measurement;
  (* the time that has really passed, in seconds *)
  wall : Q
}.

(** ** Computations: state passing with Python exceptions *)

Inductive outcome (A : Type) :=
| Return (a : A)
| Raise (e : Py.exc).
Arguments Return {A} a.
Arguments Raise {A} e.

Definition M (A : Type) : Type := World -> outcome A * World.

Definition ret {A} (a : A) : M A := fun w => (Return a, w).

Definition bind {A B} (c : M A) (k : A -> M B) : M B :=
  fun w =>
    match c w with
    | (Return a, w') => k a w'
    | (Raise e, w') => (Raise e, w')
    end.

Definition raise {A} (e : Py.exc) : M A := fun w => (Raise e, w).

(** [try: body  except cls as e: handler e]. *)
Definition try_except {A} (body : M A) (cls : Py.exc_class) (handler : Py.exc -> M A) : M A :=
  fun w =>
    match body w with
    | (Return a, w') => (Return a, w')
    | (Raise e, w') =>
        if Py.issubclass (Py.exc_type e) cls then handler e w' else (Raise e, w')
    end.

Declare Scope py_scope.
Delimit Scope py_scope with py.
Notation "x <- c ;; k" := (bind c (fun x => k))
  (at level 100, c at next level, k at level 200, right associativity) : py_scope.
Notation "c ;; k" := (bind c (fun _ => k))
  (at level 100, k at level 200, right associativity) : py_scope.
Open Scope py_scope.

(** The final world and the result of running a computation. *)
Definition exec {A} (c : M A) (w : World) : World := snd (c w).
Definition eval {A} (c : M A) (w : World) : outcome A := fst (c w).

(** ** The libraries' operations on the world *)

Definition emit (e : event) : M unit := fun w =>
  (Return tt,
   {| rand_src := rand_src w; rand_pos := rand_pos w;
      clock_src := clock_src w; clock_pos := clock_pos w;
      events := events w ++ [e];
      next_span_id := next_span_id w; current_span := current_span w;
      http_requests_total := http_requests_total w;
      http_request_duration_seconds := http_request_duration_seconds w;
      otel_measurements := otel_measurements w;
      wall := wall w |}).

Definition get_current_span : M (option span_id) := fun w => (Return (current_span w), w).

Definition set_current_span (c : option span_id) : M unit := fun w =>
  (Return tt,
   {| rand_src := rand_src w; rand_pos := rand_pos w;
      clock_src := clock_src w; clock_pos := clock_pos w;
      events := events w;
      next_span_id := next_span_id w; current_span := c;
      http_requests_total := http_requests_total w;
      http_request_duration_seconds := http_request_duration_seconds w;
      otel_measurements := otel_measurements w;
      wall := wall w |}).

Definition fresh_span_id : M span_id := fun w =>
  (Return (next_span_id w),
   {| rand_src := rand_src w; rand_pos := rand_pos w;
      clock_src := clock_src w; clock_pos := clock_pos w;
      events := events w;
      next_span_id := S (next_span_id w); current_span := current_span w;
      http_requests_total := http_requests_total w;
      http_request_duration_seconds := http_request_duration_seconds w;
      otel_measurements := otel_measurements w;
      wall := wall w |}).

(** The next raw draw of the generator; the draw is part of the trace. *)
Definition next_raw : M Z := fun w =>
  let r := rand_src w (rand_pos w) in
  (Return r,
   {| rand_src := rand_src w; rand_pos := S (rand_pos w);
      clock_src := clock_src w; clock_pos := clock_pos w;
      events := events w ++ [EvRandom r];
      next_span_id := next_span_id w; current_span := current_span w;
      http_requests_total := http_requests_total w;
      http_request_duration_seconds := http_request_duration_seconds w;
      otel_measurements := otel_measurements w;
      wall := wall w |}).

Module time.

(** [time.time()]: the next reading of the system clock.  The readings are
    what the environment gives: the system clock can be set while the
    application runs, and a reading is rounded to a [float]. *)
Definition time : M float := fun w =>
  (Return (clock_src w (clock_pos w)),
   {| rand_src := rand_src w; rand_pos := rand_pos w;
      clock_src := clock_src w; clock_pos := S (clock_pos w);
      events := events w;
      next_span_id := next_span_id w; current_span := current_span w;
      http_requests_total := http_requests_total w;
      http_request_duration_seconds := http_request_duration_seconds w;
      otel_measurements := otel_measurements w;
      wall := wall w |}).

(** [time.sleep(secs)]: the call is part of the trace, and the time that
    really passes moves on by [secs], the least the call takes.  The sleeps
    of [app.py] are for the results of [random.uniform] between positive
    bounds; the [ValueError] of a negative argument is not modelled. *)
Definition sleep (secs : float) : M unit := fun w =>
  (Return tt,
   {| rand_src := rand_src w; rand_pos := rand_pos w;
      clock_src := clock_src w; clock_pos := clock_pos w;
      events := events w ++ [EvSleep secs];
      next_span_id := next_span_id w; current_span := current_span w;
      http_requests_total := http_requests_total w;
      http_request_duration_seconds := http_request_duration_seconds w;
      otel_measurements := otel_measurements w;
      wall := (wall w + Py.seconds secs)%Q |}).

End time.

Module random.

(** 53 random bits scaled into [0.0, 1.0). *)
Definition of_bits (r : Z) : float :=
  (PrimFloat.of_uint63 (Uint63.of_Z (r mod 2 ^ 53)) * 0x1p-53)%float.

(** [random.random()]. *)
Definition random : M float :=
  r <- next_raw ;;
  ret (of_bits r).

(** [random.uniform(a, b)] is [a + (b - a) * random()]. *)
Definition uniform (a b : float) : M float :=
  u <- random ;;
  ret (a + (b - a) * u)%float.

(** [Random._randbelow(n)] for [n > 0]: some integer of [0, n). *)
Definition _randbelow (n : Z) : M Z :=
  r <- next_raw ;;
  ret (r mod n).

(** [random.randint(a, b)] is [randrange(a, b + 1)]. *)
Definition randint (a b : Z) : M Z :=
  let width := b + 1 - a in
  if 0 <? width then
    k <- _randbelow width ;;
    ret (a + k)
  else
    raise {| Py.exc_type := Py.ValueError;
             Py.exc_arg := "empty range in randrange(" ++ Py.str_int a ++ ", "
                             ++ Py.str_int (b + 1) ++ ")" |}.

End random.

Module logger.

(** The level of the root logger after [logging.basicConfig(level=logging.INFO)];
    the logger "otel-sample-app" has none of its own and inherits it. *)
Definition effective_level : level := INFO.

Definition isEnabledFor (l : level) : bool := levelno effective_level <=? levelno l.

Definition log (l : level) (msg : string) (exc_info : option Py.exc) : M unit :=
  if isEnabledFor l then
    cur <- get_current_span ;;
    emit (EvLog l msg exc_info cur)
  else ret tt.

Definition debug (msg : string) : M unit := log DEBUG msg None.
Definition info (msg : string) : M unit := log INFO msg None.
Definition warning (msg : string) : M unit := log WARNING msg None.
Definition error (msg : string) : M unit := log ERROR msg None.
(** [logger.exception(msg)] inside [except ... as e]: an ERROR record with
    the exception being handled. *)
Definition exception (msg : string) (e : Py.exc) : M unit := log ERROR msg (Some e).

End logger.

Module span.

Definition set_attribute (s : span_id) (key : string) (v : attr_value) : M unit :=
  emit (EvSetAttribute s key v).

Definition record_exception (s : span_id) (e : Py.exc) : M unit :=
  emit (EvRecordException s e).

End span.

Module tracer.

(** [with tracer.start_as_current_span(name) as span: body].  The new span is
    a child of the current one and is current inside [body]; on exit the
    span ends and the previous span is current again.  An exception that
    leaves [body] is recorded on the span, marks it as an error and goes on
    to the caller. *)
Definition start_as_current_span {A} (name : string) (body : span_id -> M A) : M A :=
  parent <- get_current_span ;;
  s <- fresh_span_id ;;
  emit (EvSpanStart s name parent) ;;
  set_current_span (Some s) ;;
  fun w =>
    match body s w with
    | (Return a, w') =>
        (emit (EvSpanEnd s) ;; set_current_span parent ;; ret a) w'
    | (Raise e, w') =>
        (emit (EvRecordException s e) ;; emit (EvSetStatusError s) ;;
         emit (EvSpanEnd s) ;; set_current_span parent ;; raise e) w'
    end.

End tracer.

(** ** Metrics instruments *)

(** [prom_request_counter.labels(method=, endpoint=, status=).inc()].  Label
    values are stored as [str] of what is given. *)
Definition prom_request_counter_inc (method endpoint : string) (status : Z) : M unit := fun w =>
  let k := (method, endpoint, Py.str_int status) in
  (Return tt,
   {| rand_src := rand_src w; rand_pos := rand_pos w;
      clock_src := clock_src w; clock_pos := clock_pos w;
      events := events w;
      next_span_id := next_span_id w; current_span := current_span w;
      http_requests_total :=
        <[k := (default 0 (http_requests_total w !! k) + 1)%N]> (http_requests_total w);
      http_request_duration_seconds := http_request_duration_seconds w;
      otel_measurements := otel_measurements w;
      wall := wall w |}).

(** [prom_request_duration.labels(method=, endpoint=).observe(d)]. *)
Definition prom_request_duration_observe (method endpoint : string) (d : float) : M unit := fun w =>
  let k := (method, endpoint) in
  (Return tt,
   {| rand_src := rand_src w; rand_pos := rand_pos w;
      clock_src := clock_src w; clock_pos := clock_pos w;
      events := events w;
      next_span_id := next_span_id w; current_span := current_span w;
      http_requests_total := http_requests_total w;
      http_request_duration_seconds :=
        <[k := (default [] (http_request_duration_seconds w !! k) ++ [d])%list]>
          (http_request_duration_seconds w);
      otel_measurements := otel_measurements w;
      wall := wall w |}).

(** [generate_latest()]: the state of the registry at the time of the call. *)
Definition generate_latest : M body := fun w =>
  (Return (BExposition (http_requests_total w) (http_request_duration_seconds w)), w).

Definition meter_measure (m : measurement) : M unit := fun w =>
  (Return tt,
   {| rand_src := rand_src w; rand_pos := rand_pos w;
      clock_src := clock_src w; clock_pos := clock_pos w;
      events := events w;
      next_span_id := next_span_id w; current_span := current_span w;
      http_requests_total := http_requests_total w;
      http_request_duration_seconds := http_request_duration_seconds w;
      otel_measurements := otel_measurements w ++ [m];
      wall := wall w |}).

(** [otel_request_counter.add(n, attrs)]: the measurement is kept.  What
    else the SDK does with it, such as sampling exemplars, is not modelled. *)
Definition otel_request_counter_add (n : Z) (attrs : list (string * string)) : M unit :=
  meter_measure {| instrument := "app.requests.total"; amount := NInt n; attributes := attrs |}.

(** [otel_request_duration.record(d, attrs)]. *)
Definition otel_request_duration_record (d : float) (attrs : list (string * string)) : M unit :=
  meter_measure {| instrument := "app.request.duration"; amount := NFloat d; attributes := attrs |}.

(** ** The view functions of [app.py] *)

Definition hello : M view_rv :=
  logger.info "Processing request at / endpoint" ;;
  tracer.start_as_current_span "hello-span" (fun span =>
    span.set_attribute span "custom.attribute" (AStr "hello-world") ;;
    d <- random.uniform 0.1 0.3 ;;
    time.sleep d ;;
    logger.info "Successfully processed / request" ;;
    ret (RvResponse (jsonify (JDict [("message", JStr "Hello from OTel Sample App!");
                                     ("status", JStr "success")])))).

Definition get_users : M view_rv :=
  logger.info "Fetching users list" ;;
  tracer.start_as_current_span "get-users" (fun span =>
    span.set_attribute span "users.count" (AInt 3) ;;
    d <- random.uniform 0.05 0.15 ;;
    time.sleep d ;;
    let users := [JDict [("id", JInt 1); ("name", JStr "Alice")];
                  JDict [("id", JInt 2); ("name", JStr "Bob")];
                  JDict [("id", JInt 3); ("name", JStr "Charlie")]] in
    logger.info ("Retrieved " ++ Py.str_int (Z.of_nat (length users)) ++ " users") ;;
    ret (RvResponse (jsonify (JDict [("users", JList users)])))).

Definition get_user (user_id : Z) : M view_rv :=
  logger.info ("Fetching user with id: " ++ Py.str_int user_id) ;;
  tracer.start_as_current_span "get-user-by-id" (fun span =>
    span.set_attribute span "user.id" (AInt user_id) ;;
    d <- random.uniform 0.05 0.2 ;;
    time.sleep d ;;
    if 10 <? user_id then
      logger.warning ("User " ++ Py.str_int user_id ++ " not found") ;;
      span.set_attribute span "error" (ABool true) ;;
      ret (RvWithStatus (jsonify (JDict [("error", JStr "User not found")])) 404)
    else
      let name := "User" ++ Py.str_int user_id in
      let user := JDict [("id", JInt user_id);
                         ("name", JStr name);
                         ("email", JStr ("user" ++ Py.str_int user_id ++ "@example.com"))] in
      logger.info ("Retrieved user: " ++ name) ;;
      ret (RvResponse (jsonify (JDict [("user", user)])))).

Definition create_order : M view_rv :=
  logger.info "Creating new order" ;;
  tracer.start_as_current_span "create-order" (fun span =>
    tracer.start_as_current_span "validate-order" (fun _ =>
      d <- random.uniform 0.02 0.05 ;;
      time.sleep d ;;
      logger.debug "Order validated") ;;
    tracer.start_as_current_span "process-payment" (fun _ =>
      d <- random.uniform 0.1 0.2 ;;
      time.sleep d ;;
      logger.debug "Payment processed") ;;
    tracer.start_as_current_span "update-inventory" (fun _ =>
      d <- random.uniform 0.03 0.08 ;;
      time.sleep d ;;
      logger.debug "Inventory updated") ;;
    order_id <- random.randint 1000 9999 ;;
    span.set_attribute span "order.id" (AInt order_id) ;;
    logger.info ("Order created successfully with id: " ++ Py.str_int order_id) ;;
    ret (RvResponse (jsonify (JDict [("order_id", JInt order_id);
                                     ("status", JStr "created")])))).

Definition trigger_error : M view_rv :=
  logger.error "Simulating an error scenario" ;;
  tracer.start_as_current_span "error-endpoint" (fun span =>
    span.set_attribute span "error" (ABool true) ;;
    span.set_attribute span "error.type" (AStr "SimulatedError") ;;
    try_except
      (raise {| Py.exc_type := Py.ValueError;
                Py.exc_arg := "This is a simulated error for testing" |})
      Py.Exception (fun e =>
        logger.exception "An error occurred" e ;;
        span.record_exception span e ;;
        ret (RvWithStatus (jsonify (JDict [("error", JStr (Py.str_exc e))])) 500))).

Definition slow_endpoint : M view_rv :=
  logger.info "Processing slow request" ;;
  tracer.start_as_current_span "slow-endpoint" (fun span =>
    delay <- random.uniform 1 3 ;;
    span.set_attribute span "delay.seconds" (AFloat delay) ;;
    logger.info ("Simulating slow operation for " ++ Py.format_2f delay ++ " seconds") ;;
    time.sleep delay ;;
    logger.info "Slow operation completed" ;;
    ret (RvResponse (jsonify (JDict [("message", JStr "Slow operation completed");
                                     ("delay", JFloat delay)])))).

Definition metrics : M view_rv :=
  latest <- generate_latest ;;
  ret (RvResponse {| status_code := 200; mimetype := ContentTypeLatest; data := latest |}).

Definition health : M view_rv :=
  ret (RvResponse (jsonify (JDict [("status", JStr "healthy");
                                   ("service", JStr "otel-sample-app")]))).

(** What the client gets for what a view function returns. *)
Definition respond (view : M view_rv) : M response :=
  rv <- view ;; ret (make_response rv).

(** ** Routing *)

(** [request.method] and [request.path].  The path is the one Werkzeug
    routes: decoded, and with a single leading slash. *)
Record request := { method : string; path : string }.

(** The view functions registered with [@app.route], and the one [Flask]
    registers by itself for the files of its static folder. *)
Inductive endpoint :=
| Hello
| GetUsers
| GetUser (user_id : Z)
| CreateOrder
| TriggerError
| SlowEndpoint
| Metrics
| Health
| Static (filename : string).

(** [s] without its prefix [p], when it has it. *)
Fixpoint strip_prefix (p s : string) : option string :=
  match p, s with
  | EmptyString, _ => Some s
  | String a p', String b s' => if Ascii.eqb a b then strip_prefix p' s' else None
  | String _ _, EmptyString => None
  end.

(** The [int] converter of a URL rule.  Its pattern is [\d+]: one or more
    decimal digits, of any script. *)
Definition int_converter_regex (segment : string) : bool :=
  match Py.decimal_digits segment with Some _ => true | None => false end.

(** Its [to_python] is [int]; a segment [int] refuses does not match. *)
Definition int_converter (segment : string) : option Z := Py.int_of_digits segment.

(** The [path] converter of the rule [/static/<path:filename>].  Its pattern
    is [[^/].*?]: a character that is no slash, then any characters but line
    feeds. *)
Definition path_converter_regex (segment : string) : bool :=
  match segment with
  | EmptyString => false
  | String a rest =>
      negb (Ascii.eqb a "/") &&
      forallb (fun b => negb (Ascii.eqb b "010")) (list_ascii_of_string rest)
  end.

(** The URL map: the rules of the eight [@app.route] decorators and the
    rule of the static folder. *)
Definition url_map (p : string) : option endpoint :=
  if String.eqb p "/" then Some Hello
  else if String.eqb p "/api/users" then Some GetUsers
  else if String.eqb p "/api/orders" then Some CreateOrder
  else if String.eqb p "/api/error" then Some TriggerError
  else if String.eqb p "/api/slow" then Some SlowEndpoint
  else if String.eqb p "/metrics" then Some Metrics
  else if String.eqb p "/health" then Some Health
  else match strip_prefix "/api/users/" p with
       | Some segment => option_map GetUser (int_converter segment)
       | None =>
           match strip_prefix "/static/" p with
           | Some filename =>
               if path_converter_regex filename then Some (Static filename) else None
           | None => None
           end
       end.

(** Whether the pattern of one of the rules takes the path [p], before the
    argument of the rule is converted. *)
Definition match_rule (p : string) : bool :=
  if String.eqb p "/" then true
  else if String.eqb p "/api/users" then true
  else if String.eqb p "/api/orders" then true
  else if String.eqb p "/api/error" then true
  else if String.eqb p "/api/slow" then true
  else if String.eqb p "/metrics" then true
  else if String.eqb p "/health" then true
  else match strip_prefix "/api/users/" p with
       | Some segment => int_converter_regex segment
       | None =>
           match strip_prefix "/static/" p with
           | Some filename => path_converter_regex filename
           | None => false
           end
       end.

(** [re.sub("/{2,}?", "/", p)], the path Werkzeug tries when no pattern takes
    [p] ([merge_slashes] is on by default): from left to right every two
    slashes become one. *)
Fixpoint merge_slashes (p : string) : string :=
  match p with
  | String a ((String b rest) as p') =>
      if Ascii.eqb a "/" && Ascii.eqb b "/" then String "/" (merge_slashes rest)
      else String a (merge_slashes p')
  | _ => p
  end.

(** No route names its methods, so each accepts GET, and with it HEAD and
    OPTIONS. *)
Definition allowed_method (m : string) : bool :=
  String.eqb m "GET" || String.eqb m "HEAD" || String.eqb m "OPTIONS".

(** The response Werkzeug renders for an [HTTPException]. *)
Definition http_exception (code : Z) : response :=
  {| status_code := code; mimetype := TextHtml; data := BHttpError code |}.

(** [Flask.send_static_file].  [app.py] comes without a static folder, so
    there is no file to send: the [NotFound] of [send_from_directory], which
    Flask answers with its 404 page. *)
Definition send_static_file (filename : string) : M view_rv :=
  ret (RvResponse (http_exception 404)).

Definition view_function (ep : endpoint) : M view_rv :=
  match ep with
  | Hello => hello
  | GetUsers => get_users
  | GetUser user_id => get_user user_id
  | CreateOrder => create_order
  | TriggerError => trigger_error
  | SlowEndpoint => slow_endpoint
  | Metrics => metrics
  | Health => health
  | Static filename => send_static_file filename
  end.

(** The response to Werkzeug's [RequestRedirect], which sends the client to
    the path with its slashes merged. *)
Definition request_redirect (location : string) : response :=
  {| status_code := 308; mimetype := TextHtml; data := BRedirect location |}.

(** [Flask.dispatch_request], with the routing that precedes it.  A path
    that the pattern of a rule takes is routed when the method is allowed
    and the argument converts: to the view function, or for OPTIONS to the
    automatic answer.  A path that no pattern takes, but whose merged form
    a pattern does, is redirected.  A method that is not allowed is answered
    405, everything else 404. *)
Definition dispatch_request (req : request) : M view_rv :=
  if match_rule (path req) then
    if allowed_method (method req) then
      match url_map (path req) with
      | Some ep =>
          if String.eqb (method req) "OPTIONS" then
            ret (RvResponse {| status_code := 200; mimetype := TextHtml; data := BEmpty |})
          else view_function ep
      | None => ret (RvResponse (http_exception 404))
      end
    else ret (RvResponse (http_exception 405))
  else if match_rule (merge_slashes (path req)) then
    if allowed_method (method req) then
      ret (RvResponse (request_redirect (merge_slashes (path req))))
    else ret (RvResponse (http_exception 405))
  else ret (RvResponse (http_exception 404)).

(** ** The middleware of [app.py] *)

(** [flask.g], new for every request. *)
Record flask_g := { start_time : option float }.

Definition before_request (g : flask_g) : M flask_g :=
  t <- time.time ;;
  ret {| start_time := Some t |}.

Definition after_request (req : request) (g : flask_g) (resp : response) : M response :=
  match start_time g with
  | Some t0 =>
      t1 <- time.time ;;
      let duration := (t1 - t0)%float in
      prom_request_counter_inc (method req) (path req) (status_code resp) ;;
      prom_request_duration_observe (method req) (path req) duration ;;
      otel_request_counter_add 1 [("endpoint", path req); ("method", method req)] ;;
      otel_request_duration_record duration [("endpoint", path req)] ;;
      ret resp
  | None => ret resp
  end.

(** What goes to the client: the response to a HEAD request leaves without
    its body. *)
Definition send (req : request) (resp : response) : response :=
  if String.eqb (method req) "HEAD"
  then {| status_code := status_code resp; mimetype := mimetype resp; data := BEmpty |}
  else resp.

(** One request through the application: the [before_request] hook, the view
    function, the [after_request] hook.  An exception that leaves the view
    function becomes the 500 response of [Flask.handle_exception], and the
    [after_request] hook sees that response as well.

    This is the application as [app.py] writes it.  What the libraries add
    around it on their own is not part of the model: the server span that
    [FlaskInstrumentor] opens around every request, and what the SDK does
    with a measurement besides keeping it.  So [events], [next_span_id],
    [current_span] and [rand_pos] tell what the hooks and the view functions
    of [app.py] do, not all that a request leaves behind. *)
Definition wsgi_app (req : request) : M response :=
  g <- before_request {| start_time := None |} ;;
  resp <- try_except
            (respond (dispatch_request req))
            Py.Exception (fun _ => ret (http_exception 500)) ;;
  resp <- after_request req g resp ;;
  ret (send req resp).

(** The requests of a run, one after the other. *)
Fixpoint serve (reqs : list request) : M (list response) :=
  match reqs with
  | [] => ret []
  | req :: rest =>
      resp <- wsgi_app req ;;
      resps <- serve rest ;;
      ret (resp :: resps)
  end.

(** ** A concrete world to run the application in *)

Definition world0 : World :=
  {| rand_src := fun n => (6364136223846793005 * (Z.of_nat n + 1) + 1442695040888963407) mod 2 ^ 64;
     rand_pos := 0%nat;
     clock_src := fun n => (1700000000 + PrimFloat.of_uint63 (Uint63.of_Z (Z.of_nat n)) * 0.25)%float;
     clock_pos := 0%nat;
     events := [];
     next_span_id := 0%nat;
     current_span := None;
     http_requests_total := ∅;
     http_request_duration_seconds := ∅;
     otel_measurements := [];
     wall := 0 |}.

Definition GET (p : string) : request := {| method := "GET"; path := p |}.

(** * Verification *)

(** ** Vocabulary of the properties *)

(** The view functions do not read the clock and do not touch the metrics:
    these belong to the middleware. *)
Definition same_metrics (w w' : World) : Prop :=
  clock_src w' = clock_src w /\ clock_pos w' = clock_pos w /\
  http_requests_total w' = http_requests_total w /\
  http_request_duration_seconds w' = http_request_duration_seconds w /\
  otel_measurements w' = otel_measurements w.

(** The status a view function answers with. *)
Definition view_status (ep : endpoint) : Z :=
  match ep with
  | GetUser user_id => if 10 <? user_id then 404 else 200
  | TriggerError => 500
  | Static _ => 404
  | _ => 200
  end.

(** The status the application answers a request with. *)
Definition route_status (req : request) : Z :=
  if match_rule (path req) then
    if allowed_method (method req) then
      match url_map (path req) with
      | Some ep => if String.eqb (method req) "OPTIONS" then 200 else view_status ep
      | None => 404
      end
    else 405
  else if match_rule (merge_slashes (path req)) then
    if allowed_method (method req) then 308 else 405
  else 404.

(** The labels under which [after_request] counts a request. *)
Definition label_key (req : request) : counter_key :=
  (method req, path req, Py.str_int (route_status req)).

(** The value of a child of [http_requests_total]; a child that was never
    incremented counts as 0. *)
Definition counter_value (counters : gmap counter_key N) (k : counter_key) : N :=
  default 0%N (counters !! k).

(** The time between the two clock readings taken around a request that
    starts in [w]. *)
Definition elapsed (w : World) : float :=
  (clock_src w (S (clock_pos w)) - clock_src w (clock_pos w))%float.

(** A measurement carries the label [name] with value [value]. *)
Definition has_label (name value : string) (m : measurement) : Prop :=
  assoc name (attributes m) = Some value.

(** The pull side of the instrumentation: between [w] and [w'] the counter
    child of the request's method, path and status went up by one and the
    histogram child of its method and path observed the elapsed time. *)
Definition prom_recorded (req : request) (resp : response) (w w' : World) : Prop :=
  let ck := (method req, path req, Py.str_int (status_code resp)) in
  let hk := (method req, path req) in
  http_requests_total w' =
    <[ck := (counter_value (http_requests_total w) ck + 1)%N]> (http_requests_total w) /\
  http_request_duration_seconds w' =
    <[hk := (default [] (http_request_duration_seconds w !! hk) ++ [elapsed w])%list]>
      (http_request_duration_seconds w).

(** The push side as the specification words it: one addition to the counter
    and one recording of the elapsed time on the histogram, both labelled by
    method and path. *)
Definition otel_recorded_as_specified (req : request) (w w' : World) : Prop :=
  exists c h,
    otel_measurements w' = (otel_measurements w ++ [c; h])%list /\
    instrument c = "app.requests.total" /\ amount c = NInt 1 /\
    instrument h = "app.request.duration" /\ amount h = NFloat (elapsed w) /\
    (has_label "method" (method req) c /\ has_label "endpoint" (path req) c) /\
    (has_label "method" (method req) h /\ has_label "endpoint" (path req) h).

(** The push side as [after_request] does it: the counter is labelled by
    path and method, the histogram by path alone. *)
Definition otel_recorded (req : request) (w w' : World) : Prop :=
  otel_measurements w' =
    (otel_measurements w ++
      [ {| instrument := "app.requests.total"; amount := NInt 1;
           attributes := [("endpoint", path req); ("method", method req)] |};
        {| instrument := "app.request.duration"; amount := NFloat (elapsed w);
           attributes := [("endpoint", path req)] |} ])%list.

(** How many of [reqs] are counted under the labels [k]. *)
Definition requests_with_labels (k : counter_key) (reqs : list request) : nat :=
  length (filter (fun r => label_key r = k) reqs).

(** The value a response of [/metrics] shows for a child of
    [http_requests_total]. *)
Definition exposed_counter (b : body) (k : counter_key) : N :=
  match b with
  | BExposition counters _ => counter_value counters k
  | _ => 0%N
  end.

(** The [n]-th raw draw the generator will give from [w] on. *)
Definition draw (w : World) (n : nat) : Z := rand_src w (n + rand_pos w)%nat.

(** The arguments of the calls of [time.sleep] among [evs]. *)
Definition sleeps (evs : list event) : list float :=
  flat_map (fun e => match e with EvSleep secs => [secs] | _ => [] end) evs.

(** [w] after a view function that opened [spans] spans, made [draws] draws
    and had the effects [evs], the sleeps among them taking their time. *)
Definition advance (w : World) (spans draws : nat) (evs : list event) : World :=
  {| rand_src := rand_src w; rand_pos := (draws + rand_pos w)%nat;
     clock_src := clock_src w; clock_pos := clock_pos w;
     events := (events w ++ evs)%list;
     next_span_id := (spans + next_span_id w)%nat; current_span := current_span w;
     http_requests_total := http_requests_total w;
     http_request_duration_seconds := http_request_duration_seconds w;
     otel_measurements := otel_measurements w;
     wall := fold_left (fun t secs => (t + Py.seconds secs)%Q) (sleeps evs) (wall w) |}.

(** The exception [trigger_error] raises. *)
Definition simulated_error : Py.exc :=
  {| Py.exc_type := Py.ValueError; Py.exc_arg := "This is a simulated error for testing" |}.

(** The decimal digits [str] writes an [int] with: ASCII, most significant
    first. *)
Fixpoint uint_digits (d : Decimal.uint) : list Z :=
  match d with
  | Decimal.Nil => []
  | Decimal.D0 d => 0 :: uint_digits d
  | Decimal.D1 d => 1 :: uint_digits d
  | Decimal.D2 d => 2 :: uint_digits d
  | Decimal.D3 d => 3 :: uint_digits d
  | Decimal.D4 d => 4 :: uint_digits d
  | Decimal.D5 d => 5 :: uint_digits d
  | Decimal.D6 d => 6 :: uint_digits d
  | Decimal.D7 d => 7 :: uint_digits d
  | Decimal.D8 d => 8 :: uint_digits d
  | Decimal.D9 d => 9 :: uint_digits d
  end.

(** The events of [w'] that are not yet in [w]. *)
Definition emitted (w w' : World) (evs : list event) : Prop :=
  events w' = (events w ++ evs)%list.

(** ** Vocabulary of the further properties *)

(** The observations a child of [http_request_duration_seconds] holds; a
    child that never observed holds none. *)
Definition observations (hists : gmap hist_key (list float)) (k : hist_key) : list float :=
  default [] (hists !! k).

Definition option_nat_eqb (a b : option nat) : bool :=
  match a, b with
  | Some x, Some y => Nat.eqb x y
  | None, None => true
  | _, _ => false
  end.

(** A trace keeps the discipline of [with tracer.start_as_current_span]:
    [open] are the spans open so far, innermost first, and [ambient] is the
    span that was current before the first of them.  Every span starts as a
    child of the innermost open span, ends before its parent does,
    attributes and exceptions go to spans that are still open, every log
    record carries the innermost open span, and in the end no span is left
    open. *)
Fixpoint well_scoped (ambient : option span_id) (open : list span_id)
    (evs : list event) : bool :=
  let current := match open with s :: _ => Some s | [] => ambient end in
  match evs with
  | [] => match open with [] => true | _ :: _ => false end
  | EvLog _ _ _ in_span :: rest =>
      option_nat_eqb in_span current && well_scoped ambient open rest
  | EvSpanStart s _ parent :: rest =>
      option_nat_eqb parent current && well_scoped ambient (s :: open) rest
  | (EvSetAttribute s _ _ | EvRecordException s _ | EvSetStatusError s) :: rest =>
      existsb (Nat.eqb s) open && well_scoped ambient open rest
  | EvSpanEnd s :: rest =>
      match open with
      | t :: outer => Nat.eqb s t && well_scoped ambient outer rest
      | [] => false
      end
  | (EvSleep _ | EvRandom _) :: rest => well_scoped ambient open rest
  end.

(** The levels of the log records among [evs]. *)
Definition log_levels (evs : list event) : list level :=
  flat_map (fun e => match e with EvLog l _ _ _ => [l] | _ => [] end) evs.

(** [w] with another generator behind [random]. *)
Definition with_rand_src (src : nat -> Z) (w : World) : World :=
  {| rand_src := src; rand_pos := rand_pos w;
     clock_src := clock_src w; clock_pos := clock_pos w;
     events := events w;
     next_span_id := next_span_id w; current_span := current_span w;
     http_requests_total := http_requests_total w;
     http_request_duration_seconds := http_request_duration_seconds w;
     otel_measurements := otel_measurements w;
     wall := wall w |}.

(** [w] after one reading of the clock. *)
Definition tick (w : World) : World := exec time.time w.

(** ** The application, run *)

Example str_int_examples :
  map Py.str_int [0; 7; 10; 404; -5] = ["0"; "7"; "10"; "404"; "-5"].
Proof. reflexivity. Qed.

Example format_2f_examples :
  map Py.format_2f [1; 2.5; 0.125; 0.375; 1.005; 2.675; 2.999]%float
    = ["1.00"; "2.50"; "0.12"; "0.38"; "1.00"; "2.67"; "3.00"].
Proof. vm_compute. reflexivity. Qed.

Example url_map_examples :
  map url_map ["/"; "/api/users"; "/api/users/007"; "/api/users/"; "/api/users/1x";
               "/api/users/-1"; "/health/"]
    = [Some Hello; Some GetUsers; Some (GetUser 7); None; None; None; None].
Proof. reflexivity. Qed.

(** ARABIC-INDIC DIGIT FOUR, U+0664, and FULLWIDTH DIGIT TWO, U+FF12, in
    UTF-8: the [int] converter takes them as it takes ["42"]; SUPERSCRIPT
    TWO, U+00B2, is no decimal digit. *)
Example url_map_unicode_digits :
  let byte n := ascii_of_N (Z.to_N n) in
  let four := String (byte 217) (String (byte 164) "") in
  let two := String (byte 239) (String (byte 188) (String (byte 146) "")) in
  let squared := String (byte 194) (String (byte 178) "") in
  map url_map ["/api/users/" ++ four ++ two; "/api/users/4" ++ two;
               "/api/users/4" ++ squared]
    = [Some (GetUser 42); Some (GetUser 42); None].
Proof. vm_compute. reflexivity. Qed.

(** [int] reads 4300 digits and refuses 4301, whatever they are. *)
Example url_map_int_max_str_digits :
  let zeros n := string_of_list_ascii (repeat "0"%char (Z.to_nat n)) in
  url_map ("/api/users/" ++ zeros 4299 ++ "7") = Some (GetUser 7) /\
  url_map ("/api/users/" ++ zeros 4300 ++ "7") = None /\
  route_status (GET ("/api/users/" ++ zeros 4300 ++ "7")) = 404.
Proof. vm_compute. repeat split. Qed.

Example merge_slashes_examples :
  map merge_slashes ["/api/users"; "/api//users"; "///"; "/api////users//5"]
    = ["/api/users"; "/api/users"; "//"; "/api//users/5"].
Proof. reflexivity. Qed.

Example route_status_examples :
  map route_status [GET "/api//users"; {| method := "POST"; path := "/api//users" |};
                    GET "/api/users//5"; GET "/api/users/"; GET "/health/";
                    {| method := "OPTIONS"; path := "/health" |};
                    {| method := "DELETE"; path := "/api/users/12" |};
                    GET "/static/app.css"; {| method := "POST"; path := "/static/app.css" |};
                    GET "/static//app.css"; GET "/static/"]
    = [308; 405; 308; 404; 404; 200; 405; 404; 405; 308; 404].
Proof. reflexivity. Qed.

Example head_request_world0 :
  eval (wsgi_app {| method := "HEAD"; path := "/health" |}) world0
    = Return {| status_code := 200; mimetype := ApplicationJson; data := BEmpty |} /\
  eval (wsgi_app (GET "/api//users")) world0 = Return (request_redirect "/api/users").
Proof. split; reflexivity. Qed.

Example serve_world0 :
  let run := serve [GET "/health"; GET "/api/users/3"; GET "/api/users/42";
                    GET "/api/error"; {| method := "POST"; path := "/api/orders" |};
                    GET "/nowhere"] in
  match eval run world0 with
  | Return resps => map status_code resps
  | Raise _ => []
  end = [200; 200; 404; 500; 405; 404] /\
  http_requests_total (exec run world0) !! ("GET", "/api/users/42", "404") = Some 1%N /\
  length (otel_measurements (exec run world0)) = 12%nat.
Proof. vm_compute. repeat split. Qed.

(** ** What the view functions leave alone *)

(** Symbolic execution of a view function: the libraries' operations and the
    fields of the world are unfolded, arithmetic and strings are left alone. *)
Ltac run_view :=
  cbv [view_function hello get_users get_user create_order trigger_error
       slow_endpoint metrics health send_static_file advance draw emitted
       simulated_error];
  change (random.randint 1000 9999)
    with (bind (random._randbelow 9000) (fun k => ret (1000 + k)));
  cbv [eval exec respond bind ret raise try_except make_response jsonify
       tracer.start_as_current_span logger.debug logger.info logger.warning
       logger.error logger.exception logger.log logger.isEnabledFor
       logger.effective_level levelno Z.leb Z.compare Pos.compare Pos.compare_cont
       span.set_attribute span.record_exception
       random.uniform random.random random._randbelow
       next_raw time.sleep emit get_current_span set_current_span fresh_span_id
       generate_latest Py.issubclass Py.exc_type Py.str_exc Py.exc_arg fst snd
       rand_src rand_pos clock_src clock_pos events next_span_id
       current_span http_requests_total http_request_duration_seconds
       otel_measurements wall status_code mimetype data Nat.add];
  rewrite <- ?app_assoc.

Lemma view_function_frame (ep : endpoint) (w : World) :
  same_metrics w (exec (view_function ep) w).
Proof.
  destruct w, ep; try (run_view; repeat split; fail).
  run_view. destruct (10 <? user_id); run_view; repeat split.
Qed.

Lemma view_function_returns (ep : endpoint) (w : World) :
  exists rv, eval (view_function ep) w = Return rv /\
             status_code (make_response rv) = view_status ep.
Proof.
  destruct w, ep; try (run_view; eexists; split; reflexivity).
  unfold view_status. run_view.
  destruct (10 <? user_id); run_view; eexists; split; reflexivity.
Qed.
Lemma dispatch_request_frame (req : request) (w : World) :
  same_metrics w (exec (dispatch_request req) w).
Proof.
  unfold dispatch_request.
  repeat match goal with
  | |- context [if ?b then _ else _] => destruct b
  | |- context [match url_map ?p with _ => _ end] => destruct (url_map p) as [ep|]
  end; first [apply view_function_frame | repeat split].
Qed.

Lemma dispatch_request_returns (req : request) (w : World) :
  exists rv, eval (dispatch_request req) w = Return rv /\
             status_code (make_response rv) = route_status req.
Proof.
  unfold dispatch_request, route_status.
  repeat match goal with
  | |- context [if ?b then _ else _] => destruct b
  | |- context [match url_map ?p with _ => _ end] => destruct (url_map p) as [ep|]
  end; first [apply view_function_returns | eexists; split; reflexivity].
Qed.

(** What [after_request] does once [before_request] has set [g.start_time]. *)
Lemma after_request_run (req : request) (t0 : float) (resp : response) (w : World) :
  let duration := (clock_src w (clock_pos w) - t0)%float in
  let ck := (method req, path req, Py.str_int (status_code resp)) in
  let hk := (method req, path req) in
  after_request req {| start_time := Some t0 |} resp w =
    (Return resp,
     {| rand_src := rand_src w; rand_pos := rand_pos w;
        clock_src := clock_src w; clock_pos := S (clock_pos w);
        events := events w;
        next_span_id := next_span_id w; current_span := current_span w;
        http_requests_total :=
          <[ck := (counter_value (http_requests_total w) ck + 1)%N]> (http_requests_total w);
        http_request_duration_seconds :=
          <[hk := (default [] (http_request_duration_seconds w !! hk) ++ [duration])%list]>
            (http_request_duration_seconds w);
        otel_measurements :=
          ((otel_measurements w ++
            [ {| instrument := "app.requests.total"; amount := NInt 1;
                 attributes := [("endpoint", path req); ("method", method req)] |} ]) ++
            [ {| instrument := "app.request.duration"; amount := NFloat duration;
                 attributes := [("endpoint", path req)] |} ])%list;
        wall := wall w |}).
Proof. reflexivity. Qed.

Lemma send_status_code (req : request) (resp : response) :
  status_code (send req resp) = status_code resp.
Proof. unfold send. by destruct (String.eqb _ _). Qed.

(** One request through the application: it is answered, with the status of
    its route, and [after_request] has made its four recordings. *)
Lemma wsgi_app_spec (req : request) (w : World) :
  exists resp,
    eval (wsgi_app req) w = Return resp /\
    status_code resp = route_status req /\
    http_requests_total (exec (wsgi_app req) w) =
      <[label_key req := (counter_value (http_requests_total w) (label_key req) + 1)%N]>
        (http_requests_total w) /\
    http_request_duration_seconds (exec (wsgi_app req) w) =
      <[(method req, path req) :=
          (default [] (http_request_duration_seconds w !! (method req, path req))
             ++ [elapsed w])%list]>
        (http_request_duration_seconds w) /\
    otel_measurements (exec (wsgi_app req) w) =
      (otel_measurements w ++
        [ {| instrument := "app.requests.total"; amount := NInt 1;
             attributes := [("endpoint", path req); ("method", method req)] |};
          {| instrument := "app.request.duration"; amount := NFloat (elapsed w);
             attributes := [("endpoint", path req)] |} ])%list.
Proof.
  unfold eval, exec, wsgi_app, before_request.
  cbv [bind time.time ret].
  set (w1 := Build_World _ _ _ _ _ _ _ _ _ _ _).
  destruct (dispatch_request_returns req w1) as (rv & Hrv & Hst).
  destruct (dispatch_request_frame req w1) as (Hcs & Hcp & Hct & Hhs & Hom).
  unfold eval in Hrv. unfold exec in Hcs, Hcp, Hct, Hhs, Hom.
  unfold try_except, respond. cbv [bind ret].
  destruct (dispatch_request req w1) as [o w2]. cbn [fst snd] in *. subst o.
  rewrite after_request_run.
  cbn [fst snd http_requests_total http_request_duration_seconds otel_measurements].
  rewrite Hcs, Hcp, Hct, Hhs, Hom, Hst. subst w1.
  cbn [clock_src clock_pos http_requests_total http_request_duration_seconds
       otel_measurements].
  exists (send req (make_response rv)). rewrite <- app_assoc, send_status_code.
  repeat split; exact Hst.
Qed.


(** ** The view functions, run *)

Ltac run_done := run_view; reflexivity.

Lemma trigger_error_run (w : World) :
  trigger_error w =
    (Return (RvWithStatus (jsonify (JDict [("error", JStr "This is a simulated error for testing")])) 500),
     advance w 1 0
       [ EvLog ERROR "Simulating an error scenario" None (current_span w);
         EvSpanStart (next_span_id w) "error-endpoint" (current_span w);
         EvSetAttribute (next_span_id w) "error" (ABool true);
         EvSetAttribute (next_span_id w) "error.type" (AStr "SimulatedError");
         EvLog ERROR "An error occurred" (Some simulated_error) (Some (next_span_id w));
         EvRecordException (next_span_id w) simulated_error;
         EvSpanEnd (next_span_id w) ]).
Proof. destruct w. run_done. Qed.

Lemma create_order_run (w : World) :
  let parent := next_span_id w in
  let order_id := 1000 + draw w 3 mod 9000 in
  create_order w =
    (Return (RvResponse (jsonify (JDict [("order_id", JInt order_id);
                                         ("status", JStr "created")]))),
     advance w 4 4
       [ EvLog INFO "Creating new order" None (current_span w);
         EvSpanStart parent "create-order" (current_span w);
         EvSpanStart (S parent) "validate-order" (Some parent);
         EvRandom (draw w 0);
         EvSleep (0.02 + (0.05 - 0.02) * random.of_bits (draw w 0))%float;
         EvSpanEnd (S parent);
         EvSpanStart (S (S parent)) "process-payment" (Some parent);
         EvRandom (draw w 1);
         EvSleep (0.1 + (0.2 - 0.1) * random.of_bits (draw w 1))%float;
         EvSpanEnd (S (S parent));
         EvSpanStart (S (S (S parent))) "update-inventory" (Some parent);
         EvRandom (draw w 2);
         EvSleep (0.03 + (0.08 - 0.03) * random.of_bits (draw w 2))%float;
         EvSpanEnd (S (S (S parent)));
         EvRandom (draw w 3);
         EvSetAttribute parent "order.id" (AInt order_id);
         EvLog INFO ("Order created successfully with id: " ++ Py.str_int order_id)
           None (Some parent);
         EvSpanEnd parent ]).
Proof. destruct w. run_done. Qed.

Lemma get_user_run_found (user_id : Z) (w : World) :
  user_id <= 10 ->
  let s := next_span_id w in
  let name := "User" ++ Py.str_int user_id in
  get_user user_id w =
    (Return (RvResponse (jsonify (JDict [("user",
       JDict [("id", JInt user_id);
              ("name", JStr name);
              ("email", JStr ("user" ++ Py.str_int user_id ++ "@example.com"))])]))),
     advance w 1 1
       [ EvLog INFO ("Fetching user with id: " ++ Py.str_int user_id) None (current_span w);
         EvSpanStart s "get-user-by-id" (current_span w);
         EvSetAttribute s "user.id" (AInt user_id);
         EvRandom (draw w 0);
         EvSleep (0.05 + (0.2 - 0.05) * random.of_bits (draw w 0))%float;
         EvLog INFO ("Retrieved user: " ++ name) None (Some s);
         EvSpanEnd s ]).
Proof.
  intros Hle. apply Z.ltb_ge in Hle. destruct w.
  run_view. rewrite Hle. run_done.
Qed.

Lemma get_user_run_not_found (user_id : Z) (w : World) :
  10 < user_id ->
  let s := next_span_id w in
  get_user user_id w =
    (Return (RvWithStatus (jsonify (JDict [("error", JStr "User not found")])) 404),
     advance w 1 1
       [ EvLog INFO ("Fetching user with id: " ++ Py.str_int user_id) None (current_span w);
         EvSpanStart s "get-user-by-id" (current_span w);
         EvSetAttribute s "user.id" (AInt user_id);
         EvRandom (draw w 0);
         EvSleep (0.05 + (0.2 - 0.05) * random.of_bits (draw w 0))%float;
         EvLog WARNING ("User " ++ Py.str_int user_id ++ " not found") None (Some s);
         EvSetAttribute s "error" (ABool true);
         EvSpanEnd s ]).
Proof.
  intros Hlt. apply Z.ltb_lt in Hlt. destruct w.
  run_view. rewrite Hlt. run_done.
Qed.

Lemma slow_endpoint_run (w : World) :
  let s := next_span_id w in
  let delay := (1 + (3 - 1) * random.of_bits (draw w 0))%float in
  slow_endpoint w =
    (Return (RvResponse (jsonify (JDict [("message", JStr "Slow operation completed");
                                         ("delay", JFloat delay)]))),
     advance w 1 1
       [ EvLog INFO "Processing slow request" None (current_span w);
         EvSpanStart s "slow-endpoint" (current_span w);
         EvRandom (draw w 0);
         EvSetAttribute s "delay.seconds" (AFloat delay);
         EvLog INFO ("Simulating slow operation for " ++ Py.format_2f delay ++ " seconds")
           None (Some s);
         EvSleep delay;
         EvLog INFO "Slow operation completed" None (Some s);
         EvSpanEnd s ]).
Proof. destruct w. run_done. Qed.

(** ** The view functions *)

(** After a run lemma has been rewritten: project the pair. *)
Ltac ran := cbv [eval exec respond bind ret make_response jsonify fst snd
                 status_code mimetype data].

(** C1. For every [user_id <= 10] the view function [get_user] answers with
    HTTP 200 and the JSON body [{"user": {"id": user_id, "name":
    "User<user_id>", "email": "user<user_id>@example.com"}}], in every world. *)
Theorem get_user_found (user_id : Z) (w : World) :
  user_id <= 10 ->
  eval (respond (get_user user_id)) w =
    Return {| status_code := 200; mimetype := ApplicationJson;
              data := BJson (JDict [("user",
                JDict [("id", JInt user_id);
                       ("name", JStr ("User" ++ Py.str_int user_id));
                       ("email", JStr ("user" ++ Py.str_int user_id ++ "@example.com"))])]) |}.
Proof.
  intros Hle. ran. rewrite (get_user_run_found user_id w Hle). reflexivity.
Qed.

Lemma get_user_found_witness :
  7 <= 10 /\
  eval (respond (get_user 7)) world0 =
    Return {| status_code := 200; mimetype := ApplicationJson;
              data := BJson (JDict [("user",
                JDict [("id", JInt 7); ("name", JStr "User7");
                       ("email", JStr "user7@example.com")])]) |}.
Proof.
  split; [lia | apply (get_user_found 7 world0); lia].
Defined.

(** C2. For every [user_id > 10] the view function [get_user] answers with
    HTTP 404 and the JSON body [{"error": "User not found"}]; the body has
    no ["user"] entry. *)
Theorem get_user_not_found (user_id : Z) (w : World) :
  10 < user_id ->
  exists resp,
    eval (respond (get_user user_id)) w = Return resp /\
    status_code resp = 404 /\
    data resp = BJson (JDict [("error", JStr "User not found")]) /\
    (forall j, data resp = BJson j -> json_get "user" j = None).
Proof.
  intros Hlt. ran. rewrite (get_user_run_not_found user_id w Hlt).
  eexists. split; [reflexivity|]. split; [reflexivity|]. split; [reflexivity|].
  intros j [= <-]. reflexivity.
Qed.

Lemma get_user_not_found_witness :
  10 < 11 /\
  exists resp,
    eval (respond (get_user 11)) world0 = Return resp /\
    status_code resp = 404 /\
    data resp = BJson (JDict [("error", JStr "User not found")]) /\
    (forall j, data resp = BJson j -> json_get "user" j = None).
Proof.
  split; [lia | apply (get_user_not_found 11 world0); lia].
Defined.

(** C3. In every world [trigger_error] answers with HTTP 500 and the body
    [{"error": "This is a simulated error for testing"}]; on the way it has
    logged the [ValueError] it raised and caught and recorded it on its span. *)
Theorem trigger_error_response (w : World) :
  eval (respond trigger_error) w =
    Return {| status_code := 500; mimetype := ApplicationJson;
              data := BJson (JDict [("error", JStr "This is a simulated error for testing")]) |} /\
  emitted w (exec trigger_error w)
    [ EvLog ERROR "Simulating an error scenario" None (current_span w);
      EvSpanStart (next_span_id w) "error-endpoint" (current_span w);
      EvSetAttribute (next_span_id w) "error" (ABool true);
      EvSetAttribute (next_span_id w) "error.type" (AStr "SimulatedError");
      EvLog ERROR "An error occurred" (Some simulated_error) (Some (next_span_id w));
      EvRecordException (next_span_id w) simulated_error;
      EvSpanEnd (next_span_id w) ].
Proof.
  unfold emitted. ran. rewrite trigger_error_run. split; reflexivity.
Qed.

(** C10. [trigger_error] never lets an exception out: the [ValueError] is of
    a class its [except Exception] branch catches, so in every world the
    function returns a body and a status, and its span is left without
    the error status an escaping exception would give it. *)
Theorem trigger_error_never_raises (w : World) :
  Py.issubclass (Py.exc_type simulated_error) Py.Exception = true /\
  (exists r status, eval trigger_error w = Return (RvWithStatus r status)) /\
  (forall e, eval trigger_error w <> Raise e) /\
  (forall s evs, emitted w (exec trigger_error w) evs -> ~ In (EvSetStatusError s) evs).
Proof.
  unfold emitted. ran. rewrite trigger_error_run. cbn [fst snd advance events].
  split; [reflexivity|]. split; [do 2 eexists; reflexivity|].
  split; [intros e; discriminate|].
  intros s evs Hev%app_inv_head. subst evs. cbn.
  intros H. repeat (destruct H as [H|H]; [discriminate|]). exact H.
Qed.

(** C6. In every world [create_order] answers with a JSON body whose
    [order_id] is an integer of [1000, 9999] and whose [status] is
    ["created"]. *)
Theorem create_order_response (w : World) :
  exists order_id,
    eval (respond create_order) w =
      Return {| status_code := 200; mimetype := ApplicationJson;
                data := BJson (JDict [("order_id", JInt order_id);
                                      ("status", JStr "created")]) |} /\
    1000 <= order_id <= 9999.
Proof.
  exists (1000 + draw w 3 mod 9000). split.
  - ran. rewrite create_order_run. reflexivity.
  - pose proof (Z.mod_pos_bound (draw w 3) 9000). lia.
Qed.

(** C8. In every world [create_order] opens the span [create-order] and,
    inside it, one after the other and each closed before the next opens,
    the three spans [validate-order], [process-payment] and
    [update-inventory], all children of [create-order] and each with one
    sleep inside; the draw for the order id comes after the third has ended. *)
Theorem create_order_spans (w : World) :
  let parent := next_span_id w in
  emitted w (exec create_order w)
    [ EvLog INFO "Creating new order" None (current_span w);
      EvSpanStart parent "create-order" (current_span w);
      EvSpanStart (S parent) "validate-order" (Some parent);
      EvRandom (draw w 0);
      EvSleep (0.02 + (0.05 - 0.02) * random.of_bits (draw w 0))%float;
      EvSpanEnd (S parent);
      EvSpanStart (S (S parent)) "process-payment" (Some parent);
      EvRandom (draw w 1);
      EvSleep (0.1 + (0.2 - 0.1) * random.of_bits (draw w 1))%float;
      EvSpanEnd (S (S parent));
      EvSpanStart (S (S (S parent))) "update-inventory" (Some parent);
      EvRandom (draw w 2);
      EvSleep (0.03 + (0.08 - 0.03) * random.of_bits (draw w 2))%float;
      EvSpanEnd (S (S (S parent)));
      EvRandom (draw w 3);
      EvSetAttribute parent "order.id" (AInt (1000 + draw w 3 mod 9000));
      EvLog INFO ("Order created successfully with id: "
                    ++ Py.str_int (1000 + draw w 3 mod 9000)) None (Some parent);
      EvSpanEnd parent ].
Proof.
  cbv zeta. unfold emitted, exec. rewrite create_order_run. reflexivity.
Qed.

(** ** The slow endpoint *)

(** X2. [slow_endpoint] sleeps for the very number it reports.  It makes one
    draw, and [delay], the value [random.uniform(1, 3)] computes from it, is
    the [delay.seconds] attribute of the span, the number in the log
    message, the argument of the only sleep and the [delay] of the body; the
    trace of the whole call is the one given here. *)
Lemma slow_endpoint_sleeps_reported_delay (w : World) :
  let s := next_span_id w in
  let delay := (1 + (3 - 1) * random.of_bits (draw w 0))%float in
  let evs :=
    [ EvLog INFO "Processing slow request" None (current_span w);
      EvSpanStart s "slow-endpoint" (current_span w);
      EvRandom (draw w 0);
      EvSetAttribute s "delay.seconds" (AFloat delay);
      EvLog INFO ("Simulating slow operation for " ++ Py.format_2f delay ++ " seconds")
        None (Some s);
      EvSleep delay;
      EvLog INFO "Slow operation completed" None (Some s);
      EvSpanEnd s ] in
  eval (respond slow_endpoint) w =
    Return (jsonify (JDict [("message", JStr "Slow operation completed");
                            ("delay", JFloat delay)])) /\
  emitted w (exec slow_endpoint w) evs /\
  sleeps evs = [delay] /\
  rand_pos (exec slow_endpoint w) = S (rand_pos w).
Proof.
  unfold emitted. ran. rewrite slow_endpoint_run. cbv zeta.
  repeat split; reflexivity.
Qed.

Example slow_endpoint_world0 :
  eval (respond slow_endpoint) world0 =
    Return (jsonify (JDict [("message", JStr "Slow operation completed");
                            ("delay", JFloat 2.464763894633534)])).
Proof. vm_compute. reflexivity. Qed.

(** ** The instrumentation middleware *)

(** X1. What [after_request] does for every request: the request is answered,
    and it has been recorded once on the pull side (the counter child of its
    method, path and status up by one, the elapsed time observed by the
    histogram child of its method and path) and once on the push side (1
    added to the counter with its path and method, the elapsed time recorded
    on the histogram with its path alone). *)
Lemma wsgi_app_records (req : request) (w : World) :
  exists resp,
    eval (wsgi_app req) w = Return resp /\
    prom_recorded req resp w (exec (wsgi_app req) w) /\
    otel_recorded req w (exec (wsgi_app req) w).
Proof.
  destruct (wsgi_app_spec req w) as (resp & Hev & Hst & Hc & Hh & Ho).
  exists resp. split; [exact Hev|]. split; [|exact Ho].
  unfold prom_recorded. rewrite Hst. split; [exact Hc | exact Hh].
Qed.

(** The push-side histogram never carries a method label. *)
Lemma otel_duration_without_method (req : request) (w : World) :
  ~ otel_recorded_as_specified req w (exec (wsgi_app req) w).
Proof.
  intros (c & h & Heq & _ & _ & _ & _ & _ & Hm & _).
  destruct (wsgi_app_spec req w) as (_ & _ & _ & _ & _ & Ho).
  rewrite Ho in Heq. apply app_inv_head in Heq.
  injection Heq as _ <-. discriminate Hm.
Qed.

(** C4. A [GET /health] in [world0]: it is answered 200 and recorded on the
    pull side as the claim says, but of the two push-side measurements only
    the counter's carries the method; the histogram's is labelled by the
    path alone, so the push side is not recorded as the claim words it. *)
Theorem health_request_recordings :
  let w' := exec (wsgi_app (GET "/health")) world0 in
  eval (wsgi_app (GET "/health")) world0 =
    Return (jsonify (JDict [("status", JStr "healthy");
                            ("service", JStr "otel-sample-app")])) /\
  http_requests_total w' !! ("GET", "/health", "200") = Some 1%N /\
  http_request_duration_seconds w' !! ("GET", "/health") = Some [0.25%float] /\
  otel_measurements w' =
    [ {| instrument := "app.requests.total"; amount := NInt 1;
         attributes := [("endpoint", "/health"); ("method", "GET")] |};
      {| instrument := "app.request.duration"; amount := NFloat 0.25;
         attributes := [("endpoint", "/health")] |} ] /\
  ~ otel_recorded_as_specified (GET "/health") world0 w'.
Proof.
  cbv zeta. split; [reflexivity|]. split; [vm_compute; reflexivity|].
  split; [vm_compute; reflexivity|]. split; [vm_compute; reflexivity|].
  apply otel_duration_without_method.
Qed.

(** ** The request counter over a run *)

Lemma serve_exec_cons (req : request) (rest : list request) (w : World) :
  exec (serve (req :: rest)) w = exec (serve rest) (exec (wsgi_app req) w).
Proof.
  destruct (wsgi_app_spec req w) as (resp & Hev & _).
  unfold exec, eval in *. cbn [serve]. unfold bind.
  destruct (wsgi_app req w) as [o w1]. cbn [fst snd] in *. subst o.
  destruct (serve rest w1) as [[resps|e] w2]; reflexivity.
Qed.

(** One request adds one to the child of its own labels and leaves the
    other children as they are. *)
Lemma wsgi_app_counter (req : request) (w : World) (k : counter_key) :
  counter_value (http_requests_total (exec (wsgi_app req) w)) k =
    (counter_value (http_requests_total w) k
       + if decide (label_key req = k) then 1 else 0)%N.
Proof.
  destruct (wsgi_app_spec req w) as (resp & _ & _ & Hc & _).
  rewrite Hc. unfold counter_value. rewrite lookup_insert.
  destruct (decide (label_key req = k)) as [->|Hne]; cbn; lia.
Qed.

Lemma serve_counter (reqs : list request) (w : World) (k : counter_key) :
  counter_value (http_requests_total (exec (serve reqs) w)) k =
    (counter_value (http_requests_total w) k
       + N.of_nat (requests_with_labels k reqs))%N.
Proof.
  revert w. induction reqs as [|req rest IH]; intros w.
  - cbn. lia.
  - rewrite serve_exec_cons, IH, wsgi_app_counter.
    unfold requests_with_labels. rewrite filter_cons.
    destruct (decide (label_key req = k)); cbn [length]; lia.
Qed.

Lemma metrics_response (w : World) :
  eval (wsgi_app (GET "/metrics")) w =
    Return {| status_code := 200; mimetype := ContentTypeLatest;
              data := BExposition (http_requests_total w)
                                  (http_request_duration_seconds w) |}.
Proof. reflexivity. Qed.

(** N requests of the same method and path are N requests under the same
    labels. *)
Lemma requests_with_labels_replicate (req : request) (n : nat) :
  requests_with_labels (label_key req) (replicate n req) = n.
Proof.
  unfold requests_with_labels. induction n as [|n IH]; [reflexivity|].
  cbn [replicate]. rewrite filter_cons.
  destruct (decide (label_key req = label_key req)); [|congruence].
  cbn [length]. by rewrite IH.
Qed.

(** C5. Every request is counted under its method, its path and the status
    of its response.  Over any run of requests no child of
    [http_requests_total] goes down, the child of a label combination goes
    up by exactly the number of requests of the run counted under it, and a
    [GET /metrics] after the run shows for it a value of at least that
    number. *)
Theorem requests_total_monotonic (reqs : list request) (w : World) (k : counter_key) :
  let w' := exec (serve reqs) w in
  let n := N.of_nat (requests_with_labels k reqs) in
  (forall req w0, exists resp,
      eval (wsgi_app req) w0 = Return resp /\
      label_key req = (method req, path req, Py.str_int (status_code resp)) /\
      counter_value (http_requests_total (exec (wsgi_app req) w0)) (label_key req)
        = (counter_value (http_requests_total w0) (label_key req) + 1)%N) /\
  (forall k', counter_value (http_requests_total w) k'
              <= counter_value (http_requests_total w') k')%N /\
  counter_value (http_requests_total w') k
    = (counter_value (http_requests_total w) k + n)%N /\
  exists resp,
    eval (wsgi_app (GET "/metrics")) w' = Return resp /\
    status_code resp = 200 /\
    (n <= exposed_counter (data resp) k)%N.
Proof.
  cbv zeta. split; [|split; [|split]].
  - intros req w0. destruct (wsgi_app_spec req w0) as (resp & Hev & Hst & _).
    exists resp. split; [exact Hev|]. split.
    + unfold label_key. by rewrite Hst.
    + rewrite wsgi_app_counter. by rewrite decide_True.
  - intros k'. rewrite serve_counter. lia.
  - apply serve_counter.
  - eexists. split; [apply metrics_response|]. split; [reflexivity|].
    cbn [data exposed_counter]. rewrite serve_counter. lia.
Qed.

(** ** The URL map *)

Lemma strip_prefix_Some (p s r : string) :
  strip_prefix p s = Some r -> s = p ++ r.
Proof.
  revert s. induction p as [|a p IH]; intros s; cbn.
  - by intros [= ->].
  - destruct s as [|b s]; [discriminate|].
    destruct (Ascii.eqb_spec a b) as [->|]; [|discriminate].
    intros H. by rewrite (IH _ H).
Qed.

(** ** Decimal digits *)

Lemma decimal_range (cp d : Z) : Py.decimal cp = Some d -> 0 <= d <= 9.
Proof.
  unfold Py.decimal.
  destruct (find _ Py.decimal_zeros) as [zero|] eqn:E; [|discriminate].
  apply find_some in E as [_ E]. intros [= <-]. lia.
Qed.

Lemma decimals_range (cps ds : list Z) :
  Py.decimals cps = Some ds ->
  length ds = length cps /\ Forall (fun d => 0 <= d <= 9) ds.
Proof.
  revert ds. induction cps as [|cp cps IH]; intros ds; cbn [Py.decimals].
  - intros [= <-]. by split.
  - destruct (Py.decimal cp) as [d|] eqn:Ed; [|discriminate].
    destruct (Py.decimals cps) as [ds'|]; [|discriminate].
    intros [= <-]. destruct (IH ds' eq_refl) as [Hl Hall].
    split; [cbn; by rewrite Hl|].
    constructor; [by apply decimal_range in Ed | exact Hall].
Qed.

Lemma int_of_decimals_nonneg (ds : list Z) :
  Forall (fun d => 0 <= d <= 9) ds -> 0 <= Py.int_of_decimals ds.
Proof.
  unfold Py.int_of_decimals. intros Hall.
  assert (H : forall n, 0 <= n -> 0 <= fold_left (fun n d => 10 * n + d) ds n);
    [|by apply H].
  induction Hall as [|d ds Hd _ IH]; intros n Hn; [exact Hn|].
  cbn [fold_left]. apply IH. lia.
Qed.

(** What the [int] converter takes: a non-empty run of at most
    [int_max_str_digits] decimal digits, for the number it writes. *)
Lemma int_converter_digits (seg : string) (n : Z) :
  int_converter seg = Some n ->
  exists ds, Py.decimal_digits seg = Some ds /\ ds <> [] /\
             (length ds <= Py.int_max_str_digits)%nat /\
             Forall (fun d => 0 <= d <= 9) ds /\ n = Py.int_of_decimals ds.
Proof.
  unfold int_converter, Py.int_of_digits.
  destruct (Py.decimal_digits seg) as [ds|] eqn:E; [|discriminate].
  destruct (Nat.leb_spec (length ds) Py.int_max_str_digits) as [Hl|Hl]; [|discriminate].
  intros [= <-]. exists ds. split; [reflexivity|].
  unfold Py.decimal_digits in E.
  destruct (Py.code_points seg) as [[|cp cps]|]; try discriminate.
  apply decimals_range in E as [Hlen Hall].
  split; [by destruct ds|]. by repeat split.
Qed.

Lemma code_points_ascii (a : ascii) (s : string) :
  Z.of_N (N_of_ascii a) < 128 ->
  Py.code_points (String a s) =
    Py.cons_code_point (Some (Z.of_N (N_of_ascii a))) (Py.code_points s).
Proof.
  intros H. cbn [Py.code_points]. cbv zeta.
  by destruct (Z.ltb_spec (Z.of_N (N_of_ascii a)) 128); [|lia].
Qed.

Lemma code_points_uint (d : Decimal.uint) :
  Py.code_points (NilEmpty.string_of_uint d) = Some (map (Z.add 48) (uint_digits d)).
Proof.
  induction d; cbn [NilEmpty.string_of_uint uint_digits map]; [reflexivity|..];
    (rewrite code_points_ascii; [rewrite IHd; reflexivity | by vm_compute]).
Qed.

Lemma decimals_uint (d : Decimal.uint) :
  Py.decimals (map (Z.add 48) (uint_digits d)) = Some (uint_digits d).
Proof.
  induction d; cbn [uint_digits map Py.decimals]; [reflexivity|..];
    rewrite IHd; reflexivity.
Qed.

Lemma length_uint_digits (d : Decimal.uint) :
  length (uint_digits d) = String.length (NilEmpty.string_of_uint d).
Proof. induction d; cbn [uint_digits NilEmpty.string_of_uint String.length length]; congruence. Qed.

Lemma of_uint_acc_horner (d : Decimal.uint) (acc : positive) :
  Z.pos (Pos.of_uint_acc d acc) = fold_left (fun n k => 10 * n + k) (uint_digits d) (Z.pos acc).
Proof.
  revert acc. induction d; intros acc; cbn [Pos.of_uint_acc uint_digits fold_left];
    [reflexivity|..]; rewrite IHd; f_equal; lia.
Qed.

Lemma int_of_decimals_uint (d : Decimal.uint) :
  Py.int_of_decimals (uint_digits d) = Z.of_uint d.
Proof.
  unfold Py.int_of_decimals, Z.of_uint.
  induction d; cbn [Pos.of_uint uint_digits fold_left]; try reflexivity;
    try exact IHd; cbn [Z.of_N]; by rewrite of_uint_acc_horner.
Qed.

Lemma decimal_digits_uint (d : Decimal.uint) :
  d <> Decimal.Nil ->
  Py.decimal_digits (NilEmpty.string_of_uint d) = Some (uint_digits d).
Proof.
  intros Hd. unfold Py.decimal_digits. rewrite code_points_uint.
  destruct (map _ _) as [|cp cps] eqn:E; [by destruct d|].
  rewrite <- E. apply decimals_uint.
Qed.

(** [int(str(n)) == n] for [n >= 0], as long as [str(n)] has no more than
    [int_max_str_digits] digits; beyond, [int] refuses. *)
Lemma int_of_digits_str_int (n : Z) :
  0 <= n ->
  Py.int_of_digits (Py.str_int n) =
    if (String.length (Py.str_int n) <=? Py.int_max_str_digits)%nat then Some n else None.
Proof.
  intros Hn. unfold Py.int_of_digits, Py.str_int.
  assert (Hu : exists d, Z.to_int n = Decimal.Pos d /\ d <> Decimal.Nil /\ Z.of_uint d = n).
  { destruct n as [|p|p]; [by exists (Decimal.D0 Decimal.Nil) | | lia].
    exists (Pos.to_uint p). split; [reflexivity|].
    split; [apply DecimalPos.Unsigned.to_uint_nonnil|].
    unfold Z.of_uint. by rewrite DecimalPos.Unsigned.of_to. }
  destruct Hu as (d & -> & Hnil & Hd). cbn [NilEmpty.string_of_int].
  rewrite (decimal_digits_uint _ Hnil), length_uint_digits.
  destruct (_ <=? _)%nat; [|reflexivity].
  by rewrite int_of_decimals_uint, Hd.
Qed.

(** Under [/api/users/] the URL map is the [int] converter. *)
Lemma url_map_users_prefix (segment : string) :
  url_map ("/api/users/" ++ segment) = option_map GetUser (int_converter segment).
Proof. reflexivity. Qed.

Lemma match_rule_users_prefix (segment : string) :
  match_rule ("/api/users/" ++ segment) = int_converter_regex segment.
Proof. reflexivity. Qed.

(** A path with a non-negative decimal id reaches [get_user] with that id. *)
Lemma url_map_user (n : Z) :
  0 <= n -> (String.length (Py.str_int n) <= Py.int_max_str_digits)%nat ->
  url_map ("/api/users/" ++ Py.str_int n) = Some (GetUser n).
Proof.
  intros Hn Hl. rewrite url_map_users_prefix.
  unfold int_converter. rewrite (int_of_digits_str_int n Hn).
  by destruct (Nat.leb_spec (String.length (Py.str_int n)) Py.int_max_str_digits); [|lia].
Qed.

(** The text of a negative id starts with a minus sign, which is no digit. *)
Lemma decimal_digits_negative (n : Z) : n < 0 -> Py.decimal_digits (Py.str_int n) = None.
Proof.
  intros Hn. destruct n as [|p|p]; try lia.
  unfold Py.decimal_digits, Py.str_int. cbn [Z.to_int NilEmpty.string_of_int].
  change (String.append "-" ?s) with (String "-" s).
  rewrite code_points_ascii by (by vm_compute).
  destruct (Py.code_points _) as [cps|]; [|reflexivity].
  cbn [Py.cons_code_point Py.decimals].
  by change (Py.decimal (Z.of_N (N_of_ascii "-"))) with (@None Z).
Qed.

Lemma url_map_negative (n : Z) :
  n < 0 -> url_map ("/api/users/" ++ Py.str_int n) = None.
Proof.
  intros Hn. rewrite url_map_users_prefix.
  unfold int_converter, Py.int_of_digits. by rewrite decimal_digits_negative.
Qed.

(** A path the URL map routes is one the pattern of a rule takes. *)
Lemma url_map_match_rule (p : string) (ep : endpoint) :
  url_map p = Some ep -> match_rule p = true.
Proof.
  unfold url_map, match_rule.
  repeat (destruct (String.eqb p _); [reflexivity|]).
  destruct (strip_prefix "/api/users/" p) as [segment|].
  - unfold int_converter, Py.int_of_digits, int_converter_regex.
    by destruct (Py.decimal_digits segment).
  - destruct (strip_prefix "/static/" p) as [filename|]; [|discriminate].
    by destruct (path_converter_regex filename).
Qed.

(** The digits [str] writes are no slashes: there is nothing to merge in the
    path of a user id. *)
Lemma merge_slashes_uint (a : ascii) (d : Decimal.uint) :
  a <> "/"%char ->
  merge_slashes (String a (NilEmpty.string_of_uint d)) = String a (NilEmpty.string_of_uint d).
Proof.
  revert a. induction d; intros a Ha; cbn [NilEmpty.string_of_uint merge_slashes];
    [reflexivity|..];
    (destruct (Ascii.eqb_spec a "/") as [?|_]; [done|]);
    cbn [andb]; f_equal; by apply IHd.
Qed.

Lemma merge_slashes_cons (a b : ascii) (s : string) :
  Ascii.eqb a "/" && Ascii.eqb b "/" = false ->
  merge_slashes (String a (String b s)) = String a (merge_slashes (String b s)).
Proof. intros H. cbn [merge_slashes]. by rewrite H. Qed.

Lemma merge_slashes_user (n : Z) :
  merge_slashes ("/api/users/" ++ Py.str_int n) = "/api/users/" ++ Py.str_int n.
Proof.
  assert (H : forall a d, a <> "/"%char ->
            merge_slashes ("/api/users/" ++ String a (NilEmpty.string_of_uint d))
            = "/api/users/" ++ String a (NilEmpty.string_of_uint d)).
  { intros a d Ha. cbv [String.append].
    repeat (rewrite merge_slashes_cons; [f_equal | first [reflexivity | idtac]]).
    - by apply merge_slashes_uint.
    - apply andb_false_intro2. by apply Ascii.eqb_neq. }
  unfold Py.str_int. destruct (Z.to_int n) as [d|d]; cbn [NilEmpty.string_of_int].
  - destruct d; cbn [NilEmpty.string_of_uint]; [reflexivity|..]; by apply H.
  - by apply H.
Qed.

(** A request that a view function does not answer: the hooks run, the
    response goes out as it is. *)
Lemma wsgi_app_const (req : request) (resp : response) (w : World) :
  (forall w', dispatch_request req w' = (Return (RvResponse resp), w')) ->
  eval (wsgi_app req) w = Return (send req resp).
Proof.
  intros H. unfold eval, wsgi_app, before_request, try_except, respond.
  cbv [bind time.time ret]. rewrite H. cbn [make_response].
  by rewrite after_request_run.
Qed.

Lemma dispatch_request_not_found (req : request) (w : World) :
  match_rule (path req) = false ->
  match_rule (merge_slashes (path req)) = false ->
  dispatch_request req w = (Return (RvResponse (http_exception 404)), w).
Proof. intros H1 H2. unfold dispatch_request. by rewrite H1, H2. Qed.

(** ** Further properties of the view functions *)

Lemma option_nat_eqb_refl (a : option nat) : option_nat_eqb a a = true.
Proof. destruct a; [apply Nat.eqb_refl | reflexivity]. Qed.

Ltac scoped :=
  repeat (cbn [well_scoped existsb andb orb option_nat_eqb log_levels flat_map app];
          rewrite ?Nat.eqb_refl, ?option_nat_eqb_refl).

(** X3. Whatever the route and the world, a view function keeps the span
    discipline: the spans it opens nest, each is a child of the innermost
    open span and is closed before its parent, attributes and exceptions go
    to spans that are still open, log records carry the innermost open span,
    no span is left open, and the span that was current before is current
    again afterwards. *)
Theorem view_functions_close_their_spans (ep : endpoint) (w : World) :
  exists evs,
    emitted w (exec (view_function ep) w) evs /\
    well_scoped (current_span w) [] evs = true /\
    current_span (exec (view_function ep) w) = current_span w.
Proof.
  destruct ep; cbn [view_function]; unfold emitted, exec.
  - destruct w. run_view. eexists. split; [reflexivity|]. split; [|reflexivity]. scoped. reflexivity.
  - destruct w. run_view. eexists. split; [reflexivity|]. split; [|reflexivity]. scoped. reflexivity.
  - destruct (Z.ltb_spec 10 user_id) as [H|H].
    + rewrite (get_user_run_not_found user_id w H). eexists.
      split; [reflexivity|]. split; [|reflexivity]. scoped. reflexivity.
    + rewrite (get_user_run_found user_id w H). eexists.
      split; [reflexivity|]. split; [|reflexivity]. scoped. reflexivity.
  - rewrite create_order_run. eexists.
    split; [reflexivity|]. split; [|reflexivity]. scoped. reflexivity.
  - rewrite trigger_error_run. eexists.
    split; [reflexivity|]. split; [|reflexivity]. scoped. reflexivity.
  - rewrite slow_endpoint_run. eexists.
    split; [reflexivity|]. split; [|reflexivity]. scoped. reflexivity.
  - exists []. destruct w. run_view. split; [by rewrite app_nil_r|]. split; reflexivity.
  - exists []. destruct w. run_view. split; [by rewrite app_nil_r|]. split; reflexivity.
  - exists []. destruct w. run_view. split; [by rewrite app_nil_r|]. split; reflexivity.
Qed.

Example well_scoped_rejects :
  let a := 0%nat in
  let b := 1%nat in
  well_scoped None [] [EvSpanStart a "a" None] = false /\
  well_scoped None [] [EvSpanStart a "a" None; EvSpanEnd a; EvSetAttribute a "k" (AInt 1)] = false /\
  well_scoped None [] [EvSpanStart a "a" None; EvSpanStart b "b" (Some a);
                       EvSpanEnd a; EvSpanEnd b] = false /\
  well_scoped None [] [EvSpanStart a "a" None; EvLog INFO "m" None None; EvSpanEnd a] = false.
Proof. repeat split. Qed.

Lemma get_users_run (w : World) :
  let s := next_span_id w in
  get_users w =
    (Return (RvResponse (jsonify (JDict [("users",
       JList [JDict [("id", JInt 1); ("name", JStr "Alice")];
              JDict [("id", JInt 2); ("name", JStr "Bob")];
              JDict [("id", JInt 3); ("name", JStr "Charlie")]])]))),
     advance w 1 1
       [ EvLog INFO "Fetching users list" None (current_span w);
         EvSpanStart s "get-users" (current_span w);
         EvSetAttribute s "users.count" (AInt 3);
         EvRandom (draw w 0);
         EvSleep (0.05 + (0.15 - 0.05) * random.of_bits (draw w 0))%float;
         EvLog INFO "Retrieved 3 users" None (Some s);
         EvSpanEnd s ]).
Proof. destruct w. run_done. Qed.

Lemma hello_run (w : World) :
  let s := next_span_id w in
  hello w =
    (Return (RvResponse (jsonify (JDict [("message", JStr "Hello from OTel Sample App!");
                                         ("status", JStr "success")]))),
     advance w 1 1
       [ EvLog INFO "Processing request at / endpoint" None (current_span w);
         EvSpanStart s "hello-span" (current_span w);
         EvSetAttribute s "custom.attribute" (AStr "hello-world");
         EvRandom (draw w 0);
         EvSleep (0.1 + (0.3 - 0.1) * random.of_bits (draw w 0))%float;
         EvLog INFO "Successfully processed / request" None (Some s);
         EvSpanEnd s ]).
Proof. destruct w. run_done. Qed.

Lemma metrics_run (w : World) :
  metrics w =
    (Return (RvResponse {| status_code := 200; mimetype := ContentTypeLatest;
                           data := BExposition (http_requests_total w)
                                     (http_request_duration_seconds w) |}), w).
Proof. reflexivity. Qed.

Lemma health_run (w : World) :
  health w =
    (Return (RvResponse (jsonify (JDict [("status", JStr "healthy");
                                         ("service", JStr "otel-sample-app")]))), w).
Proof. reflexivity. Qed.

Lemma send_static_file_run (filename : string) (w : World) :
  send_static_file filename w = (Return (RvResponse (http_exception 404)), w).
Proof. reflexivity. Qed.

(** X10. With the root logger at INFO no view function leaves a DEBUG
    record: the three [logger.debug] calls of [create_order] emit nothing,
    and its trace holds two log records, both at INFO. *)
Theorem debug_records_are_dropped (ep : endpoint) (w : World) :
  exists evs,
    emitted w (exec (view_function ep) w) evs /\
    ~ In DEBUG (log_levels evs) /\
    (ep = CreateOrder -> log_levels evs = [INFO; INFO]).
Proof.
  assert (Hno : forall ls, Forall (fun l => l <> DEBUG) ls -> ~ In DEBUG ls).
  { intros ls Hall Hin. rewrite Forall_forall in Hall.
    apply list_elem_of_In in Hin. by apply (Hall DEBUG). }
  destruct ep; cbn [view_function]; unfold emitted, exec.
  - rewrite hello_run. eexists. split; [reflexivity|]. split; [|discriminate].
    apply Hno. cbn. repeat constructor; discriminate.
  - rewrite get_users_run. eexists. split; [reflexivity|]. split; [|discriminate].
    apply Hno. cbn. repeat constructor; discriminate.
  - destruct (Z.ltb_spec 10 user_id) as [H|H].
    + rewrite (get_user_run_not_found user_id w H). eexists.
      split; [reflexivity|]. split; [|discriminate].
      apply Hno. cbn. repeat constructor; discriminate.
    + rewrite (get_user_run_found user_id w H). eexists.
      split; [reflexivity|]. split; [|discriminate].
      apply Hno. cbn. repeat constructor; discriminate.
  - rewrite create_order_run. eexists. split; [reflexivity|]. split; [|reflexivity].
    apply Hno. cbn. repeat constructor; discriminate.
  - rewrite trigger_error_run. eexists. split; [reflexivity|]. split; [|discriminate].
    apply Hno. cbn. repeat constructor; discriminate.
  - rewrite slow_endpoint_run. eexists. split; [reflexivity|]. split; [|discriminate].
    apply Hno. cbn. repeat constructor; discriminate.
  - rewrite metrics_run. exists []. split; [by rewrite app_nil_r|]. split; [|discriminate].
    intros [].
  - rewrite health_run. exists []. split; [by rewrite app_nil_r|]. split; [|discriminate].
    intros [].
  - rewrite send_static_file_run. exists []. split; [by rewrite app_nil_r|].
    split; [|discriminate]. intros [].
Qed.

Lemma debug_records_are_dropped_witness :
  CreateOrder = CreateOrder /\
  exists evs,
    emitted world0 (exec (view_function CreateOrder) world0) evs /\
    log_levels evs = [INFO; INFO].
Proof.
  split; [reflexivity|].
  destruct (debug_records_are_dropped CreateOrder world0) as (evs & Hev & _ & Hl).
  exists evs. split; [exact Hev | exact (Hl eq_refl)].
Defined.

(** X11. In every world [get_users] answers with the three users Alice, Bob
    and Charlie, ids 1 to 3, and the [users.count] attribute it sets on its
    span and the number in its log message are the length of that list. *)
Theorem get_users_count_is_length (w : World) :
  let users := [ JDict [("id", JInt 1); ("name", JStr "Alice")];
                 JDict [("id", JInt 2); ("name", JStr "Bob")];
                 JDict [("id", JInt 3); ("name", JStr "Charlie")] ] in
  exists evs,
    eval (respond get_users) w = Return (jsonify (JDict [("users", JList users)])) /\
    emitted w (exec get_users w) evs /\
    In (EvSetAttribute (next_span_id w) "users.count" (AInt (Z.of_nat (length users)))) evs /\
    In (EvLog INFO ("Retrieved " ++ Py.str_int (Z.of_nat (length users)) ++ " users")
          None (Some (next_span_id w))) evs /\
    log_levels evs = [INFO; INFO].
Proof.
  cbv zeta. unfold emitted. ran. rewrite get_users_run. cbn [fst snd advance events].
  eexists. split; [reflexivity|]. split; [reflexivity|].
  cbn. repeat split; tauto.
Qed.

(** X14. The answers of [hello], [get_users], [get_user], [trigger_error]
    and [health] are the same in every world: they depend neither on the
    random source nor on the clock nor on the metrics.  Only the order id,
    the delay and the exposition vary. *)
Theorem fixed_responses (ep : endpoint) (w w' : World) :
  ep <> CreateOrder -> ep <> SlowEndpoint -> ep <> Metrics ->
  eval (view_function ep) w = eval (view_function ep) w'.
Proof.
  intros Ho Hs Hm. destruct ep; try congruence; cbn [view_function]; unfold eval.
  - by rewrite !hello_run.
  - by rewrite !get_users_run.
  - destruct (Z.ltb_spec 10 user_id) as [H|H].
    + by rewrite !(get_user_run_not_found user_id _ H).
    + by rewrite !(get_user_run_found user_id _ H).
  - by rewrite !trigger_error_run.
  - by rewrite !health_run.
  - by rewrite !send_static_file_run.
Qed.

Lemma fixed_responses_witness :
  GetUser 3 <> CreateOrder /\ GetUser 3 <> SlowEndpoint /\ GetUser 3 <> Metrics /\
  eval (view_function (GetUser 3)) world0
    = eval (view_function (GetUser 3)) (with_rand_src (fun _ => 5) world0).
Proof.
  repeat (split; [discriminate|]).
  apply (fixed_responses (GetUser 3)); discriminate.
Defined.

(** X12. The bounds of the order id are attained: every integer of
    [1000, 9999] is the [order_id] of [create_order] in some world. *)
Theorem order_id_range_is_attained (v : Z) (w : World) :
  1000 <= v <= 9999 ->
  eval (respond create_order) (with_rand_src (fun _ => v - 1000) w) =
    Return (jsonify (JDict [("order_id", JInt v); ("status", JStr "created")])).
Proof.
  intros Hv. ran. rewrite create_order_run. cbv zeta. cbn [fst].
  unfold draw, with_rand_src. cbn [rand_src rand_pos].
  rewrite Z.mod_small by lia.
  replace (1000 + (v - 1000)) with v by lia. reflexivity.
Qed.

Lemma order_id_range_is_attained_witness :
  1000 <= 9999 <= 9999 /\
  eval (respond create_order) (with_rand_src (fun _ => 9999 - 1000) world0) =
    Return (jsonify (JDict [("order_id", JInt 9999); ("status", JStr "created")])).
Proof.
  split; [lia | apply (order_id_range_is_attained 9999 world0); lia].
Defined.

(** ** Further properties of the middleware *)

(** The view functions do not look at the clock: reading it before or after
    one of them comes to the same. *)
Lemma view_function_tick (ep : endpoint) (w : World) :
  view_function ep (tick w) =
    (eval (view_function ep) w, tick (exec (view_function ep) w)).
Proof.
  unfold tick, eval, exec. destruct ep; cbn [view_function].
  - rewrite !hello_run. reflexivity.
  - rewrite !get_users_run. reflexivity.
  - destruct (Z.ltb_spec 10 user_id) as [H|H].
    + rewrite !(get_user_run_not_found user_id _ H). reflexivity.
    + rewrite !(get_user_run_found user_id _ H). reflexivity.
  - rewrite !create_order_run. reflexivity.
  - rewrite !trigger_error_run. reflexivity.
  - rewrite !slow_endpoint_run. reflexivity.
  - rewrite !metrics_run. reflexivity.
  - rewrite !health_run. reflexivity.
  - rewrite !send_static_file_run. reflexivity.
Qed.

Lemma dispatch_request_tick (req : request) (w : World) :
  dispatch_request req (tick w) =
    (eval (dispatch_request req) w, tick (exec (dispatch_request req) w)).
Proof.
  unfold dispatch_request.
  repeat match goal with
  | |- context [if ?b then _ else _] => destruct b
  | |- context [match url_map ?p with _ => _ end] => destruct (url_map p) as [ep|]
  end; first [apply view_function_tick | reflexivity].
Qed.

(** A request's way through [wsgi_app], step by step. *)
Lemma wsgi_app_run (req : request) (w : World) :
  exists rv,
    eval (dispatch_request req) w = Return rv /\
    wsgi_app req w =
      (Return (send req (make_response rv)),
       exec (after_request req {| start_time := Some (clock_src w (clock_pos w)) |}
               (make_response rv))
            (tick (exec (dispatch_request req) w))).
Proof.
  destruct (dispatch_request_returns req w) as (rv & Hrv & _).
  exists rv. split; [exact Hrv|].
  unfold wsgi_app, before_request. cbv [bind time.time ret].
  change (Build_World _ _ _ _ _ _ _ _ _ _ _) with (tick w).
  unfold try_except, respond. cbv [bind ret].
  rewrite dispatch_request_tick, Hrv. unfold exec. by rewrite after_request_run.
Qed.

(** X8. The hooks leave the answer alone: what the client gets is what the
    routing and the view function of the request return, with the status
    and the content type they gave it; the body too, but for a HEAD request,
    whose response leaves without it. *)
Theorem middleware_is_transparent (req : request) (w : World) :
  exists rv,
    eval (dispatch_request req) w = Return rv /\
    eval (wsgi_app req) w = Return (send req (make_response rv)) /\
    status_code (send req (make_response rv)) = status_code (make_response rv) /\
    mimetype (send req (make_response rv)) = mimetype (make_response rv) /\
    data (send req (make_response rv)) =
      (if String.eqb (method req) "HEAD" then BEmpty else data (make_response rv)).
Proof.
  destruct (wsgi_app_run req w) as (rv & Hrv & Hrun).
  exists rv. split; [exact Hrv|]. unfold eval at 1. rewrite Hrun.
  split; [reflexivity|]. unfold send.
  by destruct (String.eqb (method req) "HEAD").
Qed.

(** A GET request is answered with what its view function returns. *)
Lemma wsgi_app_get (p : string) (ep : endpoint) (w : World) :
  url_map p = Some ep ->
  eval (wsgi_app (GET p)) w =
    match eval (view_function ep) w with
    | Return rv => Return (make_response rv)
    | Raise e => Return (http_exception 500)
    end.
Proof.
  intros Hp. destruct (wsgi_app_run (GET p) w) as (rv & Hrv & Hrun).
  unfold eval at 1. rewrite Hrun. cbn [fst].
  unfold dispatch_request in Hrv. cbn [path method GET] in Hrv.
  rewrite (url_map_match_rule p ep Hp), Hp in Hrv.
  change (allowed_method "GET") with true in Hrv.
  change (String.eqb "GET" "OPTIONS") with false in Hrv.
  cbv iota in Hrv. by rewrite Hrv.
Qed.

(** X5. The path built from a user id leads back to that id: for every
    [n >= 0] that [str] writes with no more than 4300 digits,
    [GET /api/users/<n>] is answered with the user [n] and HTTP 200 when
    [n <= 10], and with HTTP 404 and [{"error": "User not found"}] when
    [n > 10]. *)
Theorem users_route_round_trip (n : Z) (w : World) :
  0 <= n ->
  (String.length (Py.str_int n) <= Py.int_max_str_digits)%nat ->
  eval (wsgi_app (GET ("/api/users/" ++ Py.str_int n))) w =
    Return
      (if 10 <? n
       then {| status_code := 404; mimetype := ApplicationJson;
               data := BJson (JDict [("error", JStr "User not found")]) |}
       else {| status_code := 200; mimetype := ApplicationJson;
               data := BJson (JDict [("user",
                 JDict [("id", JInt n);
                        ("name", JStr ("User" ++ Py.str_int n));
                        ("email", JStr ("user" ++ Py.str_int n ++ "@example.com"))])]) |}).
Proof.
  intros Hn Hl. rewrite (wsgi_app_get _ _ w (url_map_user n Hn Hl)).
  cbn [view_function]. unfold eval.
  destruct (Z.ltb_spec 10 n) as [H|H].
  - rewrite (get_user_run_not_found n w H). reflexivity.
  - rewrite (get_user_run_found n w H). reflexivity.
Qed.

Lemma users_route_round_trip_witness :
  0 <= 10 /\ (String.length (Py.str_int 10) <= Py.int_max_str_digits)%nat /\
  eval (wsgi_app (GET ("/api/users/" ++ Py.str_int 10))) world0 =
    Return
      (if 10 <? 10
       then {| status_code := 404; mimetype := ApplicationJson;
               data := BJson (JDict [("error", JStr "User not found")]) |}
       else {| status_code := 200; mimetype := ApplicationJson;
               data := BJson (JDict [("user",
                 JDict [("id", JInt 10);
                        ("name", JStr ("User" ++ Py.str_int 10));
                        ("email", JStr ("user" ++ Py.str_int 10 ++ "@example.com"))])]) |}).
Proof.
  assert (Hl : (String.length (Py.str_int 10) <= Py.int_max_str_digits)%nat).
  { apply Nat.leb_le. reflexivity. }
  split; [lia|]. split; [exact Hl|].
  apply (users_route_round_trip 10 world0); [lia | exact Hl].
Defined.

(** ** The route of [get_user] *)

(** C9. A path reaches [get_user] only as [/api/users/<segment>] where the
    segment is one or more decimal digits, and with the number they write,
    which is not negative; [GET /api/users/0] is answered 200 with the user
    [{"id": 0, "name": "User0", "email": "user0@example.com"}]; a segment
    that is not all decimal digits matches no rule; and a negative id in the
    path matches no rule, with or without its slashes merged, and is
    answered 404 by the routing, which runs no view function. *)
Theorem get_user_route (w : World) (p segment : string) (user_id neg : Z) :
  (url_map p = Some (GetUser user_id) ->
     0 <= user_id /\
     exists seg digits,
       p = "/api/users/" ++ seg /\
       Py.decimal_digits seg = Some digits /\ digits <> [] /\
       Forall (fun d => 0 <= d <= 9) digits /\
       user_id = Py.int_of_decimals digits) /\
  eval (wsgi_app (GET "/api/users/0")) w =
    Return {| status_code := 200; mimetype := ApplicationJson;
              data := BJson (JDict [("user",
                JDict [("id", JInt 0); ("name", JStr "User0");
                       ("email", JStr "user0@example.com")])]) |} /\
  (Py.decimal_digits segment = None ->
     url_map ("/api/users/" ++ segment) = None) /\
  (neg < 0 ->
     url_map ("/api/users/" ++ Py.str_int neg) = None /\
     dispatch_request (GET ("/api/users/" ++ Py.str_int neg)) w
       = (Return (RvResponse (http_exception 404)), w) /\
     eval (wsgi_app (GET ("/api/users/" ++ Py.str_int neg))) w
       = Return (http_exception 404)).
Proof.
  split; [|split; [|split]].
  - unfold url_map.
    repeat (destruct (String.eqb p _); [discriminate|]).
    destruct (strip_prefix "/api/users/" p) as [seg|] eqn:E;
      [|destruct (strip_prefix "/static/" p) as [filename|];
        [destruct (path_converter_regex filename)|]; discriminate].
    destruct (int_converter seg) as [n|] eqn:En; [|discriminate].
    cbn. intros [= <-].
    apply int_converter_digits in En as (ds & Hds & Hne & _ & Hall & ->).
    split; [by apply int_of_decimals_nonneg|]. exists seg, ds.
    split; [by apply strip_prefix_Some|]. by repeat split.
  - rewrite (wsgi_app_get "/api/users/0" (GetUser 0) w eq_refl).
    cbn [view_function]. unfold eval.
    by rewrite (get_user_run_found 0 w).
  - intros Hseg. rewrite url_map_users_prefix.
    unfold int_converter, Py.int_of_digits. by rewrite Hseg.
  - intros Hneg. split; [by apply url_map_negative|].
    assert (Hd : forall w0, dispatch_request (GET ("/api/users/" ++ Py.str_int neg)) w0
                   = (Return (RvResponse (http_exception 404)), w0)).
    { intros w0. apply dispatch_request_not_found; cbn [path GET];
        rewrite ?merge_slashes_user, match_rule_users_prefix;
        unfold int_converter_regex; by rewrite decimal_digits_negative. }
    split; [apply Hd|]. by rewrite (wsgi_app_const _ _ w Hd).
Qed.

Lemma get_user_route_witness :
  url_map "/api/users/7" = Some (GetUser 7) /\ Py.decimal_digits "seven" = None /\ -3 < 0 /\
  (0 <= 7 /\
   exists seg digits,
     "/api/users/7" = "/api/users/" ++ seg /\
     Py.decimal_digits seg = Some digits /\ digits <> [] /\
     Forall (fun d => 0 <= d <= 9) digits /\
     7 = Py.int_of_decimals digits) /\
  url_map ("/api/users/" ++ "seven") = None /\
  url_map ("/api/users/" ++ Py.str_int (-3)) = None /\
  eval (wsgi_app (GET ("/api/users/" ++ Py.str_int (-3)))) world0
    = Return (http_exception 404).
Proof.
  destruct (get_user_route world0 "/api/users/7" "seven" 7 (-3)) as (H1 & _ & H2 & H3).
  split; [reflexivity|]. split; [reflexivity|]. split; [lia|].
  split; [apply H1; reflexivity|]. split; [apply H2; reflexivity|].
  destruct H3 as (H3 & _ & H4); [lia|]. split; [exact H3 | exact H4].
Defined.

Lemma url_map_trigger_error (p : string) :
  url_map p = Some TriggerError <-> p = "/api/error".
Proof.
  split; [|intros ->; reflexivity].
  unfold url_map.
  repeat match goal with
  | |- context [String.eqb p ?s] => destruct (String.eqb_spec p s) as [->|?]
  end; try discriminate; try reflexivity.
  destruct (strip_prefix "/api/users/" p) as [seg|];
    [destruct (int_converter seg); discriminate|].
  destruct (strip_prefix "/static/" p) as [filename|]; [|discriminate].
  destruct (path_converter_regex filename); discriminate.
Qed.

Lemma view_status_500 (ep : endpoint) : view_status ep = 500 <-> ep = TriggerError.
Proof.
  destruct ep; cbn; try (split; [discriminate | discriminate]); [|tauto].
  destruct (10 <? user_id); split; discriminate.
Qed.

(** X4. The only request answered with HTTP 500 is a GET or HEAD of
    [/api/error]: every request is answered, and its status is 500 exactly
    when its path is routed to [trigger_error] and its method runs the view. *)
Theorem server_error_only_from_trigger_error (req : request) (w : World) :
  exists resp,
    eval (wsgi_app req) w = Return resp /\
    (status_code resp = 500 <->
       path req = "/api/error" /\ (method req = "GET" \/ method req = "HEAD")).
Proof.
  destruct (wsgi_app_spec req w) as (resp & Hev & Hst & _).
  exists resp. split; [exact Hev|]. rewrite Hst. split.
  - intros H. unfold route_status in H.
    destruct (match_rule (path req));
      [|destruct (match_rule (merge_slashes _)); [destruct (allowed_method _)|];
        discriminate].
    destruct (allowed_method (method req)) eqn:Ha; [|discriminate].
    destruct (url_map (path req)) as [ep|] eqn:Hu; [|discriminate].
    destruct (String.eqb_spec (method req) "OPTIONS") as [|Ho]; [discriminate|].
    apply view_status_500 in H as ->. split; [by apply url_map_trigger_error|].
    unfold allowed_method in Ha.
    destruct (String.eqb_spec (method req) "GET"); [by left|].
    destruct (String.eqb_spec (method req) "HEAD"); [by right|].
    by destruct (String.eqb_spec (method req) "OPTIONS").
  - intros [Hp Hm]. unfold route_status. rewrite Hp.
    by destruct Hm as [-> | ->].
Qed.

(** X6. A request whose path the pattern of no rule takes, not even with
    its slashes merged, is answered with HTTP 404 by the routing alone, which
    leaves the world as it is; yet the request is timed and counted like any
    other: the counter child of its method, its raw path and ["404"] goes up
    by one and the histogram child of its method and path observes the
    elapsed time. *)
Theorem unmatched_request_is_counted (req : request) (w : World) :
  match_rule (path req) = false ->
  match_rule (merge_slashes (path req)) = false ->
  let w' := exec (wsgi_app req) w in
  dispatch_request req w = (Return (RvResponse (http_exception 404)), w) /\
  eval (wsgi_app req) w = Return (send req (http_exception 404)) /\
  counter_value (http_requests_total w') (method req, path req, "404")
    = (counter_value (http_requests_total w) (method req, path req, "404") + 1)%N /\
  observations (http_request_duration_seconds w') (method req, path req)
    = (observations (http_request_duration_seconds w) (method req, path req)
         ++ [elapsed w])%list.
Proof.
  intros Hm Hs. cbv zeta.
  destruct (wsgi_app_spec req w) as (resp & _ & _ & Hc & Hh & _).
  assert (Hk : label_key req = (method req, path req, "404")).
  { unfold label_key, route_status. by rewrite Hm, Hs. }
  rewrite Hk in Hc.
  split; [by apply dispatch_request_not_found|].
  split; [apply wsgi_app_const; intros w0; by apply dispatch_request_not_found|].
  split.
  - rewrite Hc. unfold counter_value at 1. by rewrite lookup_insert_eq.
  - rewrite Hh. unfold observations at 1. by rewrite lookup_insert_eq.
Qed.

Lemma unmatched_request_is_counted_witness :
  match_rule (path (GET "/favicon.ico")) = false /\
  match_rule (merge_slashes (path (GET "/favicon.ico"))) = false /\
  eval (wsgi_app (GET "/favicon.ico")) world0
    = Return (send (GET "/favicon.ico") (http_exception 404)) /\
  counter_value (http_requests_total (exec (wsgi_app (GET "/favicon.ico")) world0))
    ("GET", "/favicon.ico", "404")
    = (counter_value (http_requests_total world0) ("GET", "/favicon.ico", "404") + 1)%N.
Proof.
  split; [reflexivity|]. split; [reflexivity|].
  destruct (unmatched_request_is_counted (GET "/favicon.ico") world0 eq_refl eq_refl)
    as (_ & Hev & Hc & _).
  split; [exact Hev | exact Hc].
Defined.

Lemma wsgi_app_observations (req : request) (w : World) (k : hist_key) :
  observations (http_request_duration_seconds (exec (wsgi_app req) w)) k =
    (observations (http_request_duration_seconds w) k
       ++ if decide ((method req, path req) = k) then [elapsed w] else [])%list.
Proof.
  destruct (wsgi_app_spec req w) as (resp & _ & _ & _ & Hh & _).
  rewrite Hh. unfold observations. rewrite lookup_insert.
  destruct (decide ((method req, path req) = k)) as [->|Hne]; [reflexivity|].
  by rewrite app_nil_r.
Qed.

(** Two requests are counted under the same labels exactly when they have
    the same method and path: the status follows from these. *)
Lemma label_key_same (r req : request) :
  label_key r = label_key req <-> (method r, path r) = (method req, path req).
Proof.
  split.
  - unfold label_key. by intros [= -> ->].
  - destruct r, req. cbn. by intros [= -> ->].
Qed.

(** X7. The pull-side histogram and counter stay in step: over any run of
    requests, the number of observations under a request's method and path
    grows by as much as the counter child of its method, path and status. *)
Theorem histogram_count_matches_counter (reqs : list request) (w : World) (req : request) :
  let w' := exec (serve reqs) w in
  let hk := (method req, path req) in
  (N.of_nat (length (observations (http_request_duration_seconds w') hk))
     + counter_value (http_requests_total w) (label_key req))%N
  = (N.of_nat (length (observations (http_request_duration_seconds w) hk))
     + counter_value (http_requests_total w') (label_key req))%N.
Proof.
  cbv zeta. revert w. induction reqs as [|r rest IH]; intros w; [reflexivity|].
  rewrite serve_exec_cons.
  pose proof (IH (exec (wsgi_app r) w)) as Hrest.
  rewrite wsgi_app_observations, wsgi_app_counter in Hrest.
  destruct (decide ((method r, path r) = (method req, path req))) as [Heq|Hne].
  - rewrite decide_True in Hrest by (by apply label_key_same).
    rewrite length_app in Hrest. cbn [length] in Hrest. lia.
  - rewrite decide_False in Hrest by (by rewrite label_key_same).
    rewrite app_nil_r in Hrest. lia.
Qed.

(** X9. A scrape does not see itself: the exposition a [GET /metrics]
    returns shows every counter child as it was before that request, and
    the request is counted only afterwards, so the registry then holds one
    more for [GET /metrics 200] than the scrape showed. *)
Theorem metrics_excludes_own_request (w : World) :
  let own := ("GET", "/metrics", "200") in
  exists resp,
    eval (wsgi_app (GET "/metrics")) w = Return resp /\
    (forall k, exposed_counter (data resp) k = counter_value (http_requests_total w) k) /\
    counter_value (http_requests_total (exec (wsgi_app (GET "/metrics")) w)) own
      = (exposed_counter (data resp) own + 1)%N.
Proof.
  cbv zeta. eexists. split; [apply metrics_response|]. split; [reflexivity|].
  cbn [data exposed_counter].
  change ("GET", "/metrics", "200") with (label_key (GET "/metrics")).
  rewrite wsgi_app_counter. by rewrite decide_True.
Qed.

(** X13. The liveness probe is free of effects: the view function [health]
    leaves the world exactly as it finds it, without a log record, a span, a
    sleep or a random draw of its own, and [GET /health] is answered 200 with
    [{"status": "healthy", "service": "otel-sample-app"}] in every world. *)
Theorem health_probe_has_no_effects (w : World) :
  health w =
    (Return (RvResponse {| status_code := 200; mimetype := ApplicationJson;
                           data := BJson (JDict [("status", JStr "healthy");
                                                 ("service", JStr "otel-sample-app")]) |}),
     w) /\
  eval (wsgi_app (GET "/health")) w =
    Return {| status_code := 200; mimetype := ApplicationJson;
              data := BJson (JDict [("status", JStr "healthy");
                                    ("service", JStr "otel-sample-app")]) |}.
Proof.
  split; [reflexivity|].
  by rewrite (wsgi_app_get "/health" Health w eq_refl).
Qed.

(** X15. The push side follows the requests one by one: over any run, the
    measurements handed to the OpenTelemetry instruments grow by two per
    request, in the order of the requests: first the addition to
    [app.requests.total] with the request's path and method, then the
    recording on [app.request.duration] with its path. *)
Theorem push_measurements_follow_requests (reqs : list request) (w : World) :
  exists ms,
    otel_measurements (exec (serve reqs) w) = (otel_measurements w ++ ms)%list /\
    map (fun m => (instrument m, attributes m)) ms =
      flat_map (fun r =>
        [ ("app.requests.total", [("endpoint", path r); ("method", method r)]);
          ("app.request.duration", [("endpoint", path r)]) ]) reqs /\
    length ms = (2 * length reqs)%nat.
Proof.
  revert w. induction reqs as [|r rest IH]; intros w.
  - exists []. split; [by rewrite app_nil_r|]. split; reflexivity.
  - rewrite serve_exec_cons.
    destruct (IH (exec (wsgi_app r) w)) as (ms & Hms & Hmap & Hlen).
    destruct (wsgi_app_spec r w) as (resp & _ & _ & _ & _ & Ho).
    rewrite Ho, <- app_assoc in Hms.
    eexists. split; [exact Hms|]. split.
    + cbn [app map flat_map instrument attributes]. by rewrite Hmap.
    + cbn [app length]. rewrite Hlen. lia.
Qed.

(** ** The slow endpoint, timed *)

(** The binary64 arithmetic of [random.uniform(1, 3)], on the specification
    of the primitive floats. *)
Module Binary64.

Lemma Zdigits2_log2 (x : Z) : 0 < x -> Zdigits2 x = Z.log2 x + 1.
Proof.
  destruct x as [|p|p]; try lia. intros _. cbn [Zdigits2].
  induction p as [p IH|p IH|]; cbn [digits2_pos Z.log2] in *; try lia.
  - destruct p; cbn [Z.log2 Pos.size digits2_pos] in *; lia.
  - destruct p; cbn [Z.log2 Pos.size digits2_pos] in *; lia.
Qed.

Lemma digits2_pos_log2 (p : positive) : Z.pos (digits2_pos p) = Z.log2 (Z.pos p) + 1.
Proof. apply (Zdigits2_log2 (Z.pos p)). lia. Qed.

Lemma iter_pos_nat {A} (f : A -> A) (n : positive) (x : A) :
  SpecFloat.iter_pos f n x = Nat.iter (Pos.to_nat n) f x.
Proof.
  revert x. induction n as [n IH|n IH|]; intros x; cbn [SpecFloat.iter_pos].
  - rewrite !IH, <- Nat.iter_add, <- Nat.iter_succ_r. f_equal. lia.
  - rewrite !IH, <- Nat.iter_add. f_equal. lia.
  - reflexivity.
Qed.

Lemma shr_1_double (m : Z) :
  0 < m -> shr_1 {| shr_m := 2 * m; shr_r := false; shr_s := false |}
           = {| shr_m := m; shr_r := false; shr_s := false |}.
Proof. destruct m; try lia. reflexivity. Qed.

Lemma shr_exact (m e n : Z) :
  0 < m -> 0 <= n ->
  shr {| shr_m := m * 2 ^ n; shr_r := false; shr_s := false |} e n
    = ({| shr_m := m; shr_r := false; shr_s := false |}, e + n).
Proof.
  intros Hm Hn. destruct n as [|n|n]; try lia.
  - cbn [shr]. by rewrite Z.mul_1_r, Z.add_0_r.
  - cbn [shr]. f_equal. rewrite iter_pos_nat.
    rewrite <- (positive_nat_Z n). 
    induction (Pos.to_nat n) as [|k IH]; [cbn; f_equal; lia|].
    rewrite Nat.iter_succ_r.
    replace (m * 2 ^ Z.of_nat (S k)) with (2 * (m * 2 ^ Z.of_nat k)).
    + rewrite shr_1_double by lia. exact IH.
    + rewrite Nat2Z.inj_succ, Z.pow_succ_r by lia. lia.
Qed.

Lemma fexp_normal (e : Z) : -1021 <= e -> fexp prec emax e = e - 53.
Proof. unfold fexp, emin, prec, emax. lia. Qed.

(** Rounding a 53-bit mantissa shifted left by [n] bits gives it back. *)
Lemma binary_round_aux_exact (sx : bool) (p : positive) (e n : Z) :
  Z.log2 (Z.pos p) = 52 -> 0 <= n -> -1074 <= e + n <= 971 ->
  binary_round_aux prec emax sx (Z.pos p * 2 ^ n) e loc_Exact = S754_finite sx p (e + n).
Proof.
  intros Hp Hn He. unfold binary_round_aux, shr_fexp.
  rewrite Zdigits2_log2 by lia.
  rewrite Z.log2_mul_pow2 by lia. rewrite Hp.
  rewrite fexp_normal by lia.
  replace (n + 52 + 1 + e - 53 - e) with n by lia.
  cbn [shr_record_of_loc]. rewrite shr_exact by lia.
  cbn [shr_m loc_of_shr_record round_nearest_even].
  rewrite Zdigits2_log2 by lia. rewrite Hp, fexp_normal by lia.
  replace (52 + 1 + (e + n) - 53 - (e + n)) with 0 by lia.
  cbn [shr shr_m]. 
  replace (e + n <=? emax - prec) with true; [reflexivity|].
  symmetry. apply Z.leb_le. unfold emax, prec. lia.
Qed.

Lemma pos_iter_xO (p d : positive) : Z.pos (Pos.iter xO p d) = Z.pos p * 2 ^ Z.pos d.
Proof.
  induction d as [|d IH] using Pos.peano_ind.
  - cbn [Pos.iter]. lia.
  - rewrite Pos.iter_succ, Pos2Z.inj_xO, IH, Pos2Z.inj_succ, Z.pow_succ_r by lia. lia.
Qed.

(** The float of a positive integer below 2^53: the integer itself, its
    leading bit moved to position 52. *)
Lemma binary_normalize_small (m : Z) :
  0 < m < 2 ^ 53 ->
  exists p : positive,
    Z.pos p = m * 2 ^ (52 - Z.log2 m) /\ Z.log2 (Z.pos p) = 52 /\
    binary_normalize prec emax m 0 false = S754_finite false p (Z.log2 m - 52).
Proof.
  intros Hm. destruct m as [|q|q]; try lia.
  assert (Hlog : 0 <= Z.log2 (Z.pos q) < 53).
  { split; [apply Z.log2_nonneg|]. apply Z.log2_lt_pow2; lia. }
  cbn [binary_normalize]. unfold binary_round.
  rewrite digits2_pos_log2, Z.add_0_r, fexp_normal by lia.
  unfold shl_align.
  destruct (Z.log2 (Z.pos q) + 1 - 53 - 0) as [|d|d] eqn:Hd; try lia.
  - exists q. replace (52 - Z.log2 (Z.pos q)) with 0 by lia.
    split; [lia|]. split; [lia|].
    replace (Z.pos q) with (Z.pos q * 2 ^ 0) at 1 by lia.
    rewrite binary_round_aux_exact by lia. f_equal. lia.
  - exists (Pos.iter xO q d).
    replace (52 - Z.log2 (Z.pos q)) with (Z.pos d) by lia.
    assert (Hl : Z.log2 (Z.pos (Pos.iter xO q d)) = 52).
    { rewrite pos_iter_xO, Z.log2_mul_pow2 by lia. lia. }
    split; [apply pos_iter_xO|]. split; [exact Hl|].
    replace (Z.pos (Pos.iter xO q d)) with (Z.pos (Pos.iter xO q d) * 2 ^ 0) by lia.
    rewrite binary_round_aux_exact by lia. f_equal. lia.
Qed.

(** [random.of_bits]: zero, or a normal float [p * 2^e] with [e <= -53]. *)
Lemma of_bits_spec (r : Z) :
  Prim2SF (random.of_bits r) = S754_zero false \/
  exists (p : positive) (e : Z),
    Prim2SF (random.of_bits r) = S754_finite false p e /\
    Z.log2 (Z.pos p) = 52 /\ -105 <= e <= -53 /\
    Z.pos p = (r mod 2 ^ 53) * 2 ^ (- 53 - e).
Proof.
  unfold random.of_bits. rewrite FloatAxioms.mul_spec, FloatAxioms.of_uint63_spec.
  pose proof (Z.mod_pos_bound r (2 ^ 53) ltac:(lia)) as Hm.
  set (m := r mod 2 ^ 53) in *.
  rewrite Uint63.of_Z_spec, Z.mod_small by (change wB with (2 ^ 63); lia).
  change (Prim2SF 0x1p-53) with (S754_finite false 4503599627370496 (-105)).
  destruct (Z.eq_dec m 0) as [->|Hne]; [left; reflexivity|right].
  destruct (binary_normalize_small m ltac:(lia)) as (p & Hp & Hlog & ->).
  assert (Hl : 0 <= Z.log2 m < 53).
  { split; [apply Z.log2_nonneg|]. apply Z.log2_lt_pow2; lia. }
  exists p, (Z.log2 m - 105). cbn [SF64mul SFmul xorb].
  change (Z.pos (p * 4503599627370496)) with (Z.pos p * 2 ^ 52).
  rewrite binary_round_aux_exact by lia.
  split; [f_equal; lia|]. split; [exact Hlog|]. split; [lia|].
  rewrite Hp. f_equal. f_equal. lia.
Qed.

(** Twice such a float. *)
Lemma double_spec (x : float) (p : positive) (e : Z) :
  Prim2SF x = S754_finite false p e -> Z.log2 (Z.pos p) = 52 -> -1000 <= e <= 900 ->
  Prim2SF ((3 - 1) * x)%float = S754_finite false p (e + 1).
Proof.
  intros Hx Hp He. rewrite FloatAxioms.mul_spec, Hx.
  change (Prim2SF (3 - 1)) with (S754_finite false 4503599627370496 (-51)).
  cbn [SF64mul SFmul xorb].
  rewrite Pos.mul_comm.
  change (Z.pos (p * 4503599627370496)) with (Z.pos p * 2 ^ 52).
  rewrite binary_round_aux_exact by lia. f_equal. lia.
Qed.

(** A sum that is a 53-bit number shifted left by [d] bits is exact. *)
Lemma binary_normalize_exact (s q : positive) (e d : Z) :
  Z.pos s = Z.pos q * 2 ^ d -> Z.log2 (Z.pos q) = 52 -> 0 <= d ->
  -1074 <= e -> e + d <= 971 ->
  binary_normalize prec emax (Z.pos s) e false = S754_finite false q (e + d).
Proof.
  intros Hs Hq Hd He Hed. cbn [binary_normalize]. unfold binary_round.
  rewrite digits2_pos_log2, Hs, Z.log2_mul_pow2, Hq, fexp_normal by lia.
  unfold shl_align.
  destruct (d + 52 + 1 + e - 53 - e) eqn:E; try lia;
    rewrite Hs, binary_round_aux_exact by lia; reflexivity.
Qed.

(** The last step of rounding, for a mantissa that already has 53 bits. *)
Lemma round_tail (sx : bool) (q : positive) (e : Z) :
  Z.log2 (Z.pos q) = 52 -> -1074 <= e <= 971 ->
  (let '(mrs, e') := shr_fexp prec emax (Z.pos q) e loc_Exact in
   match shr_m mrs with
   | 0 => S754_zero sx
   | Z.pos m => if e' <=? emax - prec then S754_finite sx m e' else S754_infinity sx
   | Z.neg _ => S754_nan
   end) = S754_finite sx q e.
Proof.
  intros Hq He. unfold shr_fexp.
  rewrite Zdigits2_log2, Hq, fexp_normal by lia.
  replace (52 + 1 + e - 53 - e) with 0 by lia. cbn [shr shr_record_of_loc shr_m].
  replace (e <=? emax - prec) with true; [reflexivity|].
  symmetry. apply Z.leb_le. unfold emax, prec. lia.
Qed.

(** A 54-bit sum below 3 * 2^52, at exponent -52, rounds to a float of [2, 3]. *)
Lemma binary_normalize_round (s : positive) :
  2 ^ 53 <= Z.pos s < 3 * 2 ^ 52 ->
  exists q : positive,
    binary_normalize prec emax (Z.pos s) (-52) false = S754_finite false q (-51) /\
    2 ^ 52 <= Z.pos q <= 3 * 2 ^ 51.
Proof.
  intros Hs.
  assert (Hls : Z.log2 (Z.pos s) = 53) by (apply Z.log2_unique; lia).
  cbn [binary_normalize]. unfold binary_round.
  rewrite digits2_pos_log2, Hls, fexp_normal by lia.
  change (53 + 1 + -52 - 53) with (-51). change (shl_align s (-52) (-51)) with (s, -52).
  cbv beta iota. unfold binary_round_aux.
  unfold shr_fexp at 1. rewrite Zdigits2_log2, Hls, fexp_normal by lia.
  change (53 + 1 + -52 - 53 - -52) with 1.
  cbn [shr shr_record_of_loc SpecFloat.iter_pos].
  change (-52 + 1) with (-51).
  destruct s as [t|t|]; [| |lia]; cbn [shr_1 orb shr_m loc_of_shr_record round_nearest_even].
  - (* odd: a tie, rounded to even *)
    destruct t as [u|u|]; [| |lia]; cbn [Z.even Z.add Pos.add Pos.succ].
    + change (Z.pos u~1 + 1) with (Z.pos (Pos.succ u)~0).
      exists (Pos.succ u)~0%positive. rewrite round_tail; [split; [reflexivity|lia]| |lia].
      apply Z.log2_unique; lia.
    + exists u~0%positive. rewrite round_tail; [split; [reflexivity|lia]| |lia].
      apply Z.log2_unique; lia.
  - exists t. rewrite round_tail; [split; [reflexivity|lia]| |lia].
    apply Z.log2_unique; lia.
Qed.

(** One plus a float of [0, 2) that is a multiple of 2^-52 below 1. *)
Lemma one_plus_spec (x : float) (p : positive) (e : Z) (m : Z) :
  Prim2SF x = S754_finite false p e -> Z.log2 (Z.pos p) = 52 -> -104 <= e <= -52 ->
  Z.pos p = m * 2 ^ (- 52 - e) ->
  exists (q : positive) (f : Z),
    Prim2SF (1 + x)%float = S754_finite false q f /\
    ((f = -52 /\ 2 ^ 52 <= Z.pos q < 2 ^ 53) \/
     (f = -51 /\ 2 ^ 52 <= Z.pos q <= 3 * 2 ^ 51)).
Proof.
  intros Hx Hp He Hm. rewrite FloatAxioms.add_spec, Hx.
  change (Prim2SF 1) with (S754_finite false 4503599627370496 (-52)).
  cbn [SF64add SFadd cond_Zopp]. rewrite Z.min_r by lia.
  assert (Hpb : 2 ^ 52 <= Z.pos p < 2 ^ 53).
  { pose proof (Z.log2_spec (Z.pos p) ltac:(lia)) as H. rewrite Hp in H. exact H. }
  unfold shl_align at 2. rewrite Z.sub_diag. cbn [fst].
  unfold shl_align.
  destruct (e - -52) as [|d|d] eqn:Hd; try lia; cbn [fst].
  - (* e = -52: the sum has 54 bits and is rounded *)
    assert (e = -52) by lia. subst e.
    change (4503599627370496 + Z.pos p) with (Z.pos (4503599627370496 + p)).
    destruct (binary_normalize_round (4503599627370496 + p)%positive) as (q & Hq & Hqb); [lia|].
    exists q, (-51). split; [exact Hq|]. right. split; [reflexivity | exact Hqb].
  - (* e < -52: the sum is exact *)
    assert (Hd' : - 52 - e = Z.pos d) by lia. rewrite Hd' in Hm.
    assert (Hmb : 0 < m < 2 ^ 52).
    { assert (2 <= 2 ^ Z.pos d) by (apply (Z.pow_le_mono_r 2 1); lia). nia. }
    set (s := (Pos.iter xO 4503599627370496 d + p)%positive).
    change (Z.pos (Pos.iter xO 4503599627370496%positive d) + Z.pos p) with (Z.pos s).
    exists (Z.to_pos (2 ^ 52 + m)), (-52).
    assert (Hq : Z.pos (Z.to_pos (2 ^ 52 + m)) = 2 ^ 52 + m) by (apply Z2Pos.id; lia).
    rewrite (binary_normalize_exact s (Z.to_pos (2 ^ 52 + m)) e (Z.pos d)).
    + split; [f_equal; lia|]. left. split; [reflexivity|]. lia.
    + unfold s. rewrite Pos2Z.inj_add, pos_iter_xO, Hq, Hm. lia.
    + rewrite Hq. apply Z.log2_unique; lia.
    + lia.
    + lia.
    + lia.
Qed.

(** The delay [random.uniform(1, 3)] draws: a float of [1, 3]. *)
Lemma uniform_1_3_spec (r : Z) :
  exists (q : positive) (f : Z),
    Prim2SF (1 + (3 - 1) * random.of_bits r)%float = S754_finite false q f /\
    ((f = -52 /\ 2 ^ 52 <= Z.pos q < 2 ^ 53) \/
     (f = -51 /\ 2 ^ 52 <= Z.pos q <= 3 * 2 ^ 51)).
Proof.
  destruct (of_bits_spec r) as [Hz | (p & e & Hx & Hp & He & Hm)].
  - exists 4503599627370496%positive, (-52).
    rewrite FloatAxioms.add_spec, FloatAxioms.mul_spec, Hz.
    split; [reflexivity|]. left. split; [reflexivity|]. lia.
  - pose proof (double_spec _ p e Hx Hp ltac:(lia)) as H2.
    apply (one_plus_spec _ p (e + 1) (r mod 2 ^ 53) H2 Hp); [lia|].
    rewrite Hm. f_equal. f_equal. lia.
Qed.

Lemma SFleb_same_exponent (a b : positive) (e : Z) :
  Z.pos a <= Z.pos b ->
  SFleb (S754_finite false a e) (S754_finite false b e) = true.
Proof.
  intros Hab. unfold SFleb, SFcompare. rewrite Z.compare_refl.
  fold (Pos.compare a b). destruct (Pos.compare_spec a b); try reflexivity; lia.
Qed.

Lemma SFleb_lower_exponent (a b : positive) (e f : Z) :
  e < f -> SFleb (S754_finite false a e) (S754_finite false b f) = true.
Proof.
  intros Hef. unfold SFleb, SFcompare.
  apply Z.compare_lt_iff in Hef. by rewrite Hef.
Qed.

Lemma uniform_1_3_range (r : Z) :
  let delay := (1 + (3 - 1) * random.of_bits r)%float in
  (1 <=? delay)%float = true /\ (delay <=? 3)%float = true.
Proof.
  cbv zeta. destruct (uniform_1_3_spec r) as (q & f & Hd & Hb).
  rewrite !FloatAxioms.leb_spec, Hd.
  change (Prim2SF 1) with (S754_finite false 4503599627370496 (-52)).
  change (Prim2SF 3) with (S754_finite false 6755399441055744 (-51)).
  destruct Hb as [(-> & Hq) | (-> & Hq)].
  - split; [apply SFleb_same_exponent | apply SFleb_lower_exponent]; lia.
  - split; [apply SFleb_lower_exponent | apply SFleb_same_exponent]; lia.
Qed.
End Binary64.

(** The time [time.sleep] takes for a float of [random.uniform(1, 3)]. *)
Lemma seconds_uniform_1_3 (r : Z) :
  (1 <= Py.seconds (1 + (3 - 1) * random.of_bits r) <= 3)%Q.
Proof.
  destruct (Binary64.uniform_1_3_spec r) as (q & f & Hq & [[-> H]|[-> H]]);
    unfold Py.seconds; rewrite Hq; cbn [Z.leb Z.compare Z.opp];
    unfold Qle; cbn [Qnum Qden].
  - change (Z.to_pos (2 ^ 52)) with 4503599627370496%positive.
    change (2 ^ 52) with 4503599627370496 in H. change (2 ^ 53) with 9007199254740992 in H.
    lia.
  - change (Z.to_pos (2 ^ 51)) with 2251799813685248%positive.
    change (2 ^ 52) with 4503599627370496 in H. change (2 ^ 51) with 2251799813685248 in H.
    lia.
Qed.

(** The hooks and the routing take no time of their own. *)
Lemma wsgi_app_wall (req : request) (w : World) :
  wall (exec (wsgi_app req) w) = wall (exec (dispatch_request req) w).
Proof.
  destruct (wsgi_app_run req w) as (rv & _ & Hrun).
  unfold exec at 1. rewrite Hrun. cbn [snd]. unfold exec at 1.
  by rewrite after_request_run.
Qed.

(** C7. Every [GET /api/slow] is answered with a [delay] that lies within
    [1.0, 3.0], as a float and as the number of seconds it stands for; the
    view function sleeps once, for that delay; and the time that passes
    between the arrival of the request and its response is at least the
    delay reported. *)
Theorem slow_endpoint_delay (w : World) :
  let req := GET "/api/slow" in
  exists delay : float,
    eval (respond slow_endpoint) w =
      Return (jsonify (JDict [("message", JStr "Slow operation completed");
                              ("delay", JFloat delay)])) /\
    eval (wsgi_app req) w =
      Return (jsonify (JDict [("message", JStr "Slow operation completed");
                              ("delay", JFloat delay)])) /\
    (1 <=? delay)%float = true /\ (delay <=? 3)%float = true /\
    (1 <= Py.seconds delay <= 3)%Q /\
    (exists evs, emitted w (exec slow_endpoint w) evs /\ sleeps evs = [delay]) /\
    (wall (exec slow_endpoint w) == wall w + Py.seconds delay)%Q /\
    (Py.seconds delay <= wall (exec (wsgi_app req) w) - wall w)%Q.
Proof.
  cbv zeta. exists (1 + (3 - 1) * random.of_bits (draw w 0))%float.
  destruct (Binary64.uniform_1_3_range (draw w 0)) as [Hlo Hhi].
  assert (Hw : wall (exec slow_endpoint w)
               = (wall w + Py.seconds (1 + (3 - 1) * random.of_bits (draw w 0)))%Q).
  { unfold exec. by rewrite slow_endpoint_run. }
  split; [|split; [|split; [exact Hlo|split; [exact Hhi|split; [|split; [|split]]]]]].
  - unfold eval, respond, bind. by rewrite slow_endpoint_run.
  - rewrite (wsgi_app_get "/api/slow" SlowEndpoint w eq_refl).
    cbn [view_function]. unfold eval. by rewrite slow_endpoint_run.
  - apply seconds_uniform_1_3.
  - unfold emitted, exec. rewrite slow_endpoint_run. eexists. split; reflexivity.
  - by rewrite Hw.
  - rewrite wsgi_app_wall.
    change (dispatch_request (GET "/api/slow")) with slow_endpoint.
    rewrite Hw. generalize (Py.seconds (1 + (3 - 1) * random.of_bits (draw w 0))).
    intros t. lra.
Qed.
